(** * MeetingScheduler: a shallow embedding of [src/meeting-scheduler.tsx]

    The component is a React function component.  Its state is the five
    [useState] cells plus the values held by the [react-hook-form] form; its
    handlers are embedded as state transformers that also emit the effects
    they perform on the outside world (the [fetch] request, the console, the
    confetti animation).  JavaScript numbers are IEEE 754 binary64 values,
    embedded with the specification-level floats of the Standard Library.

    JavaScript strings are embedded as [string]; one character stands for
    one UTF-16 code unit. *)

From Stdlib Require Import ZArith List String Ascii Bool Lia QArith Qpower.
From Stdlib Require Import Floats.SpecFloat.
Import ListNotations.

Local Open Scope string_scope.
Local Open Scope list_scope.
Local Open Scope Z_scope.

(* ================================================================= *)
(** ** Dates *)

(** A [Date] object wraps a time value: milliseconds since the epoch, or
    [NaN] for an invalid date ([None] here). *)
Record Date : Type := mkDate { time_value : option Z }.

(** [a < b] on two [Date]s compares the time values; a comparison with
    [NaN] is false. *)
Definition date_lt (a b : Date) : bool :=
  match time_value a, time_value b with
  | Some x, Some y => x <? y
  | _, _ => false
  end.

Definition msPerDay : Z := 86400000.

(** Day number of a proleptic Gregorian calendar day, day 0 being
    1970-01-01; [month] counts from 1. *)
Definition MakeDay (year month day : Z) : Z :=
  let y := if month <=? 2 then year - 1 else year in
  let era := y / 400 in
  let yoe := y - era * 400 in
  let mp := if month <=? 2 then month + 9 else month - 3 in
  let doy := (153 * mp + 2) / 5 + day - 1 in
  let doe := yoe * 365 + yoe / 4 - yoe / 100 + doy in
  era * 146097 + doe - 719468.

(** [new Date("YYYY-MM-DD")]: a date-only ISO string is midnight UTC. *)
Definition Date_of_iso_day (year month day : Z) : Date :=
  mkDate (Some (MakeDay year month day * msPerDay)).

(** [new Date()] when the clock reads [now] milliseconds. *)
Definition Date_now (now : Z) : Date := mkDate (Some now).

Definition date_1900_01_01 : Date := Date_of_iso_day 1900 1 1.

(** The [disabled] predicate handed to the [Calendar]:
    [(date) => date < new Date() || date < new Date("1900-01-01")]. *)
Definition calendar_disabled (now : Z) (date : Date) : bool :=
  date_lt date (Date_now now) || date_lt date date_1900_01_01.

(* ================================================================= *)
(** ** The form values and the constant tables *)

(** The values held by the form (the draft).  A field the form has no
    value for is [undefined], [None] here. *)
Record Draft : Type := mkDraft {
  title : string;
  description : option string;
  date : option Date;
  duration : option string;
  participants : list string;
  timezone : option string;
  priority : string;
  themeColor : string
}.

(** The output of the schema, [z.infer<typeof formSchema>]. *)
Module Values.
Record t : Type := mk {
  title : string;
  description : option string;
  date : Date;
  duration : string;
  participants : list string;
  timezone : string;
  priority : string;
  themeColor : string
}.
End Values.

Record option_item : Type := mkItem { value : string; label : string }.

Definition durations : list option_item :=
  [ mkItem "15" "15 minutes";
    mkItem "30" "30 minutes";
    mkItem "45" "45 minutes";
    mkItem "60" "1 hour" ].

Definition timezones : list option_item :=
  [ mkItem "UTC" "UTC";
    mkItem "America/New_York" "Eastern Time";
    mkItem "America/Chicago" "Central Time";
    mkItem "America/Denver" "Mountain Time";
    mkItem "America/Los_Angeles" "Pacific Time" ].

Module Template.
Record t : Type := mk {
  name : string;
  duration : string;
  description : string;
  priority : string
}.
End Template.

Definition quickSync : Template.t :=
  Template.mk "Quick Sync" "15" "Brief alignment meeting" "low".
Definition teamPlanning : Template.t :=
  Template.mk "Team Planning" "60" "Detailed team planning session" "medium".
Definition clientPresentation : Template.t :=
  Template.mk "Client Presentation" "45" "Important client meeting" "high".

Definition meetingTemplates : list Template.t :=
  [ quickSync; teamPlanning; clientPresentation ].

Module Color.
Record t : Type := mk { name : string; value : string }.
End Color.

Definition themeColors : list Color.t :=
  [ Color.mk "Blue" "blue";
    Color.mk "Purple" "purple";
    Color.mk "Green" "green";
    Color.mk "Red" "red" ].

Definition priorities : list string := [ "low"; "medium"; "high" ].

(** [defaultValues] of [useForm]: [date] and [duration] are not given. *)
Definition defaultValues : Draft :=
  {| title := "";
     description := Some "";
     date := None;
     duration := None;
     participants := [ "" ];
     timezone := Some "UTC";
     priority := "medium";
     themeColor := "blue" |}.

(* ================================================================= *)
(** ** The schema *)

(** The place of an issue in the parsed object. *)
Inductive path : Type :=
| at_title
| at_description
| at_date
| at_duration
| at_participants
| at_participant (index : nat)
| at_timezone
| at_priority
| at_themeColor.

Record issue : Type := mkIssue { issue_path : path; message : string }.

(** The result of parsing one value: the parsed value, or the issues found.
    An object schema parses every key and gathers the issues of all of
    them, in the order of the keys. *)
Inductive parsed (A : Type) : Type :=
| Valid (a : A)
| Invalid (issues : list issue).
Arguments Valid {A} a.
Arguments Invalid {A} issues.

Definition issues_of {A} (p : parsed A) : list issue :=
  match p with
  | Valid _ => []
  | Invalid l => l
  end.

Definition ap {A B} (f : parsed (A -> B)) (x : parsed A) : parsed B :=
  match f, x with
  | Valid g, Valid a => Valid (g a)
  | Valid _, Invalid l => Invalid l
  | Invalid l, Valid _ => Invalid l
  | Invalid l1, Invalid l2 => Invalid (l1 ++ l2)
  end.

Notation "f <*> x" := (ap f x) (at level 61, left associativity).

Definition string_in (s : string) (l : list string) : bool :=
  existsb (String.eqb s) l.

Section Schema.

(** The pattern behind [z.string().email()] belongs to the zod package;
    the schema is embedded for any such test. *)
Variable is_email : string -> bool.

(** [title: z.string().min(2, {message})]. *)
Definition schema_title (s : string) : parsed string :=
  if (Z.of_nat (String.length s) <? 2)
  then Invalid [ mkIssue at_title "Meeting title must be at least 2 characters." ]
  else Valid s.

(** [description: z.string().optional()]. *)
Definition schema_description (s : option string) : parsed (option string) :=
  Valid s.

(** [date: z.date({required_error})]; a [Date] whose time value is [NaN]
    is refused as well. *)
Definition schema_date (d : option Date) : parsed Date :=
  match d with
  | None => Invalid [ mkIssue at_date "A date is required." ]
  | Some (mkDate None) => Invalid [ mkIssue at_date "Invalid date" ]
  | Some d => Valid d
  end.

(** [duration: z.string({required_error})]. *)
Definition schema_duration (s : option string) : parsed string :=
  match s with
  | None => Invalid [ mkIssue at_duration "Please select meeting duration" ]
  | Some s => Valid s
  end.

(** The element issues of [z.array(z.string().email())], from [index] on. *)
Fixpoint email_issues (index : nat) (l : list string) : list issue :=
  match l with
  | [] => []
  | s :: l' =>
      (if is_email s then [] else [ mkIssue (at_participant index) "Invalid email" ])
      ++ email_issues (S index) l'
  end.

(** [participants: z.array(z.string().email()).min(1, {message})]: the
    length check comes first and does not stop the parse of the
    elements. *)
Definition schema_participants (l : list string) : parsed (list string) :=
  match (if (Z.of_nat (List.length l) <? 1)
         then [ mkIssue at_participants "At least one participant is required" ]
         else []) ++ email_issues 0 l with
  | [] => Valid l
  | issues => Invalid issues
  end.

(** [timezone: z.string({required_error})]. *)
Definition schema_timezone (s : option string) : parsed string :=
  match s with
  | None => Invalid [ mkIssue at_timezone "Please select a timezone" ]
  | Some s => Valid s
  end.

(** [priority: z.enum(["low", "medium", "high"])]. *)
Definition schema_priority (s : string) : parsed string :=
  if string_in s priorities then Valid s
  else Invalid [ mkIssue at_priority
                   (String.append
                      "Invalid enum value. Expected 'low' | 'medium' | 'high', received '"
                      (String.append s "'")) ].

(** [themeColor: z.string()]. *)
Definition schema_themeColor (s : string) : parsed string := Valid s.

(** [formSchema]: [z.object({...})] applied to the form values. *)
Definition formSchema (d : Draft) : parsed Values.t :=
  Valid Values.mk
    <*> schema_title (title d)
    <*> schema_description (description d)
    <*> schema_date (date d)
    <*> schema_duration (duration d)
    <*> schema_participants (participants d)
    <*> schema_timezone (timezone d)
    <*> schema_priority (priority d)
    <*> schema_themeColor (themeColor d).

End Schema.

(* ================================================================= *)
(** ** Numbers *)

(** A JavaScript number is a binary64 value. *)
Definition prec : Z := 53.
Definition emax : Z := 1024.
Definition number : Type := spec_float.

(** The number for a mathematical integer (rounded to nearest, ties to
    even, when it does not fit). *)
Definition Number_of_Z (z : Z) : number := binary_normalize prec emax z 0 false.

Definition number_mul : number -> number -> number := SFmul prec emax.
Definition number_div : number -> number -> number := SFdiv prec emax.

(** The rational a finite number stands for; [None] for [NaN] and the
    infinities. *)
Definition number_value (x : number) : option Q :=
  match x with
  | S754_zero _ => Some 0%Q
  | S754_finite s m e =>
      Some (inject_Z (cond_Zopp s (Zpos m)) * Qpower (inject_Z 2) e)%Q
  | S754_infinity _ | S754_nan => None
  end.

(** White space skipped by [parseInt], among the code units below 256. *)
Definition isWhiteSpace (c : ascii) : bool :=
  existsb (Nat.eqb (nat_of_ascii c)) [ 9; 10; 11; 12; 13; 32; 160 ]%nat.

Fixpoint trimStart (s : string) : string :=
  match s with
  | String c s' => if isWhiteSpace c then trimStart s' else s
  | EmptyString => s
  end.

(** The value of [c] as a digit in [radix], if it is one. *)
Definition digit_value (radix : Z) (c : ascii) : option Z :=
  let n := Z.of_nat (nat_of_ascii c) in
  let v := if (48 <=? n) && (n <=? 57) then Some (n - 48)
           else if (97 <=? n) && (n <=? 122) then Some (n - 87)
           else if (65 <=? n) && (n <=? 90) then Some (n - 55)
           else None in
  match v with
  | Some d => if d <? radix then Some d else None
  | None => None
  end.

(** The integer written by the longest prefix of [s] made of digits of
    [radix]; [acc] is the value read so far, [None] when no digit was
    read. *)
Fixpoint digits_prefix (radix : Z) (s : string) (acc : option Z) : option Z :=
  match s with
  | String c s' =>
      match digit_value radix c with
      | Some d =>
          digits_prefix radix s'
            (Some (match acc with Some a => a * radix + d | None => d end))
      | None => acc
      end
  | EmptyString => acc
  end.

(** [Number.parseInt(s)] with no radix argument: leading white space, a
    sign, a [0x] or [0X] prefix, then digits; [NaN] when there is no
    digit.  The integer read is converted exactly (the language lets an
    implementation approximate a decimal numeral past its twentieth
    significant digit). *)
Definition parseInt (s : string) : number :=
  let s1 := trimStart s in
  let '(negative, s2) :=
    match s1 with
    | String "-" r => (true, r)
    | String "+" r => (false, r)
    | _ => (false, s1)
    end in
  let '(radix, s3) :=
    match s2 with
    | String "0" (String "x" r) => (16, r)
    | String "0" (String "X" r) => (16, r)
    | _ => (10, s2)
    end in
  match digits_prefix radix s3 None with
  | None => S754_nan
  | Some mathInt =>
      binary_normalize prec emax (if negative then - mathInt else mathInt) 0 negative
  end.

(** [v || "0"] for a string or [undefined]: the empty string is falsy. *)
Definition or_zero (v : option string) : string :=
  match v with
  | None => "0"
  | Some EmptyString => "0"
  | Some s => s
  end.

Definition averageHourlyRate : number := Number_of_Z 100.

(** The body of the cost effect, up to [setMeetingCost]:
    [participantsCount * (duration / 60) * averageHourlyRate]. *)
Definition cost (participantsCount : nat) (durationValue : option string) : number :=
  let duration := parseInt (or_zero durationValue) in
  number_mul
    (number_mul (Number_of_Z (Z.of_nat participantsCount))
                (number_div duration (Number_of_Z 60)))
    averageHourlyRate.

Definition cost_of (d : Draft) : number :=
  cost (List.length (participants d)) (duration d).

(* ================================================================= *)
(** ** Component state and effects *)

Record State : Type := mkState {
  suggestedTimes : list string;
  selectedTime : string;
  loading : bool;
  isDarkMode : bool;
  meetingCost : number;
  values : Draft;          (* the values of [form] *)
  errors : list issue      (* the errors the last submit stored in [form] *)
}.

(** The body of the request: [{participants, duration, timezone}]. *)
Record suggest_body : Type := mkBody {
  body_participants : list string;
  body_duration : string;
  body_timezone : string
}.

(** The record handed to [console.log]: [{...values, time: selectedTime}]. *)
Record scheduled : Type := mkScheduled {
  fields : Values.t;
  time : string
}.

(** What a handler does to the outside world.  [Confetti] keeps the
    particle count and the spread of the call; its origin is left out. *)
Inductive effect : Type :=
| Fetch (url method : string) (body : suggest_body)
| ConsoleError (msg : string)
| ConsoleLog (record : scheduled)
| Confetti (particleCount spread : Z).

(** How the request of [getSuggestedTimes] ends: [fetch] rejects, or
    [response.json()] rejects, or the body decodes to [times], a value of
    the type the state cell declares. *)
Inductive fetch_outcome : Type :=
| FetchRejected
| JsonRejected
| Json (times : list string).

(** A handler reads and writes the state and emits effects, in order. *)
Definition Handler (A : Type) : Type := State -> A * State * list effect.

Definition ret {A} (a : A) : Handler A := fun st => (a, st, []).

Definition bind {A B} (m : Handler A) (k : A -> Handler B) : Handler B :=
  fun st =>
    let '(a, st1, out1) := m st in
    let '(b, st2, out2) := k a st1 in
    (b, st2, out1 ++ out2).

Notation "x <- m ;; k" := (bind m (fun x => k))
  (at level 100, m at next level, right associativity).
Notation "m ;; k" := (bind m (fun _ => k))
  (at level 100, right associativity).

Definition get : Handler State := fun st => (st, st, []).
Definition perform (e : effect) : Handler unit := fun st => (tt, st, [ e ]).
Definition modify (f : State -> State) : Handler unit := fun st => (tt, f st, []).

Definition state_of {A} (r : A * State * list effect) : State := snd (fst r).
Definition effects_of {A} (r : A * State * list effect) : list effect := snd r.
Definition result_of {A} (r : A * State * list effect) : A := fst (fst r).

(** The state setters. *)
Definition setSuggestedTimes (times : list string) : Handler unit :=
  modify (fun st => mkState times (selectedTime st) (loading st) (isDarkMode st)
                            (meetingCost st) (values st) (errors st)).
Definition setSelectedTime (t : string) : Handler unit :=
  modify (fun st => mkState (suggestedTimes st) t (loading st) (isDarkMode st)
                            (meetingCost st) (values st) (errors st)).
Definition setLoading (b : bool) : Handler unit :=
  modify (fun st => mkState (suggestedTimes st) (selectedTime st) b (isDarkMode st)
                            (meetingCost st) (values st) (errors st)).
Definition setIsDarkMode (b : bool) : Handler unit :=
  modify (fun st => mkState (suggestedTimes st) (selectedTime st) (loading st) b
                            (meetingCost st) (values st) (errors st)).
Definition setMeetingCost (c : number) : Handler unit :=
  modify (fun st => mkState (suggestedTimes st) (selectedTime st) (loading st)
                            (isDarkMode st) c (values st) (errors st)).
Definition setValues (f : Draft -> Draft) : Handler unit :=
  modify (fun st => mkState (suggestedTimes st) (selectedTime st) (loading st)
                            (isDarkMode st) (meetingCost st) (f (values st)) (errors st)).
Definition setErrors (l : list issue) : Handler unit :=
  modify (fun st => mkState (suggestedTimes st) (selectedTime st) (loading st)
                            (isDarkMode st) (meetingCost st) (values st) l).

(** [form.setValue(name, v)] and [field.onChange(v)], one per field. *)
Definition with_title (v : string) (d : Draft) : Draft :=
  mkDraft v (description d) (date d) (duration d) (participants d)
          (timezone d) (priority d) (themeColor d).
Definition with_description (v : option string) (d : Draft) : Draft :=
  mkDraft (title d) v (date d) (duration d) (participants d)
          (timezone d) (priority d) (themeColor d).
Definition with_date (v : option Date) (d : Draft) : Draft :=
  mkDraft (title d) (description d) v (duration d) (participants d)
          (timezone d) (priority d) (themeColor d).
Definition with_duration (v : option string) (d : Draft) : Draft :=
  mkDraft (title d) (description d) (date d) v (participants d)
          (timezone d) (priority d) (themeColor d).
Definition with_participants (v : list string) (d : Draft) : Draft :=
  mkDraft (title d) (description d) (date d) (duration d) v
          (timezone d) (priority d) (themeColor d).
Definition with_priority (v : string) (d : Draft) : Draft :=
  mkDraft (title d) (description d) (date d) (duration d) (participants d)
          (timezone d) v (themeColor d).
Definition with_themeColor (v : string) (d : Draft) : Draft :=
  mkDraft (title d) (description d) (date d) (duration d) (participants d)
          (timezone d) (priority d) v.

(** The state the first render starts from. *)
Definition initialState : State :=
  {| suggestedTimes := [];
     selectedTime := "";
     loading := false;
     isDarkMode := false;
     meetingCost := Number_of_Z 0;
     values := defaultValues;
     errors := [] |}.

(* ================================================================= *)
(** ** The handlers *)

(** An [async] function runs until its first [await] on the network and
    leaves the rest of its body to be resumed with the outcome.  The two
    awaits of [getSuggestedTimes] ([fetch], then [response.json()]) touch
    no state in between and are one suspension. *)
Inductive async : Type :=
| Returned
| Awaiting (resume : fetch_outcome -> Handler unit).

(** The rest of [getSuggestedTimes] after its awaits: the [try] stores the
    decoded times, the [catch] logs, and [setLoading(false)] follows on
    both paths. *)
Definition getSuggestedTimes_resume (o : fetch_outcome) : Handler unit :=
  match o with
  | Json times => setSuggestedTimes times
  | FetchRejected | JsonRejected => perform (ConsoleError "Error getting suggested times:")
  end ;;
  setLoading false.

Definition getSuggestedTimes (v : Values.t) : Handler async :=
  setLoading true ;;
  perform (Fetch "/api/suggest-times" "POST"
             (mkBody (Values.participants v) (Values.duration v) (Values.timezone v))) ;;
  ret (Awaiting getSuggestedTimes_resume).

(** An [async] call whose awaited request ends with [o] before anything
    else happens. *)
Definition settled (m : Handler async) (o : fetch_outcome) : Handler unit :=
  a <- m ;;
  match a with
  | Returned => ret tt
  | Awaiting resume => resume o
  end.

(** [onSubmit]: [!selectedTime] holds for the empty string only. *)
Definition onSubmit (v : Values.t) : Handler async :=
  st <- get ;;
  if String.eqb (selectedTime st) ""
  then getSuggestedTimes v
  else
    perform (Confetti 100 70) ;;
    perform (ConsoleLog (mkScheduled v (selectedTime st))) ;;
    ret Returned.

(** [applyTemplate]: three [form.setValue] calls. *)
Definition applyTemplate (template : Template.t) : Handler unit :=
  setValues (with_duration (Some (Template.duration template))) ;;
  setValues (with_description (Some (Template.description template))) ;;
  setValues (with_priority (Template.priority template)).

(** The cost effect, run after a render: its body runs when one of its
    dependencies differs from the previous render.  The dependencies are
    compared here by value; React compares the array by identity, and a
    new array with the same entries makes the body store the same cost
    again. *)
Definition same_deps (before after : Draft) : bool :=
  (if list_eq_dec string_dec (participants before) (participants after)
   then true else false)
  && match duration before, duration after with
     | Some a, Some b => String.eqb a b
     | None, None => true
     | _, _ => false
     end.

Definition costEffect (before : Draft) : Handler unit :=
  st <- get ;;
  if same_deps before (values st) then ret tt
  else setMeetingCost (cost_of (values st)).

(** [a[index] = v] on a copy of the array; the index always comes from
    the rendered entries, so it is below the length. *)
Fixpoint array_set (l : list string) (index : nat) (v : string) : list string :=
  match l, index with
  | [], _ => []
  | _ :: l', O => v :: l'
  | x :: l', S i => x :: array_set l' i v
  end.

(** [a.filter((_, i) => i !== index)], the entries numbered from [from]. *)
Fixpoint filter_index (from : nat) (l : list string) (index : nat) : list string :=
  match l with
  | [] => []
  | x :: l' =>
      if Nat.eqb from index then filter_index (S from) l' index
      else x :: filter_index (S from) l' index
  end.

Section Component.

Variable is_email : string -> bool.

(** [form.handleSubmit(onValid)]: the resolver parses the form values;
    the issues become the form's errors and nothing else happens, or the
    errors are emptied and [onValid] receives the parsed values. *)
Definition handleSubmit (onValid : Values.t -> Handler async) : Handler async :=
  st <- get ;;
  match formSchema is_email (values st) with
  | Valid v => setErrors [] ;; onValid v
  | Invalid issues => setErrors issues ;; ret Returned
  end.

(** A submit of the form whose request, if one is made, ends with [o]
    before anything else happens. *)
Definition submit_and_settle (o : fetch_outcome) : Handler unit :=
  settled (handleSubmit onSubmit) o.

(** *** The component as a transition system *)

(** What can happen to the mounted component: the user acts on a
    control, or a pending request ends. *)
Inductive event : Type :=
| ChangeTitle (s : string)
| ChangePriority (p : string)
| ChangeDescription (s : string)
| SelectDate (now : Z) (d : option Date)
| ChangeDuration (v : string)
| ChangeParticipant (index : nat) (s : string)
| RemoveParticipant (index : nat)
| AddParticipant
| ChangeThemeColor (c : string)
| ClickTemplate (template : Template.t)
| ClickSuggestedTime (t : string)
| ToggleDarkMode
| Submit
| Settle (o : fetch_outcome).

(** The component with its surroundings: the requests still pending,
    oldest first, and everything emitted so far. *)
Record World : Type := mkWorld {
  state : State;
  pending : list (fetch_outcome -> Handler unit);
  emitted : list effect
}.

Definition template_eqb (a b : Template.t) : bool :=
  String.eqb (Template.name a) (Template.name b)
  && String.eqb (Template.duration a) (Template.duration b)
  && String.eqb (Template.description a) (Template.description b)
  && String.eqb (Template.priority a) (Template.priority b).

(** What the rendered controls allow: the selects and swatches offer
    the values of their tables, a disabled day cannot be picked, the
    participant rows and the badges are those of the current state, and
    the submit button is disabled while [loading].  This is what the
    component itself rules out; the browser may hold back a submit on
    top of it (the participant rows are email inputs, which it checks
    before the submit event), so every event the component can see is
    enabled, not the converse for [Submit]. *)
Definition enabled (w : World) (e : event) : bool :=
  let st := state w in
  match e with
  | ChangePriority p => string_in p priorities
  | SelectDate now (Some d) =>
      negb (calendar_disabled now d)
      && match time_value d with Some _ => true | None => false end
  | ChangeDuration v => string_in v (map value durations)
  | ChangeParticipant index _ => (index <? List.length (participants (values st)))%nat
  | RemoveParticipant index => (index <? List.length (participants (values st)))%nat
  | ChangeThemeColor c => string_in c (map Color.value themeColors)
  | ClickTemplate t => existsb (template_eqb t) meetingTemplates
  | ClickSuggestedTime t => string_in t (suggestedTimes st)
  | Submit => negb (loading st)
  | Settle _ => match pending w with [] => false | _ => true end
  | _ => true
  end.

(** The handler an event runs, and the request it leaves pending.  A
    change of a field is the [field.onChange] or [form.setValue] call of
    the source, on the values; [errors] is written by a submit only and
    does not follow what the form library does to its errors between
    two submits. *)
Definition handler_of (w : World) (e : event) : Handler async :=
  match e with
  | ChangeTitle s => setValues (with_title s) ;; ret Returned
  | ChangePriority p => setValues (with_priority p) ;; ret Returned
  | ChangeDescription s => setValues (with_description (Some s)) ;; ret Returned
  | SelectDate _ d => setValues (with_date d) ;; ret Returned
  | ChangeDuration v => setValues (with_duration (Some v)) ;; ret Returned
  | ChangeParticipant index s =>
      setValues (fun d => with_participants (array_set (participants d) index s) d) ;;
      ret Returned
  | RemoveParticipant index =>
      setValues (fun d => with_participants (filter_index 0 (participants d) index) d) ;;
      ret Returned
  | AddParticipant =>
      setValues (fun d => with_participants (participants d ++ [ "" ]) d) ;;
      ret Returned
  | ChangeThemeColor c => setValues (with_themeColor c) ;; ret Returned
  | ClickTemplate t => applyTemplate t ;; ret Returned
  | ClickSuggestedTime t => setSelectedTime t ;; ret Returned
  | ToggleDarkMode => st <- get ;; setIsDarkMode (negb (isDarkMode st)) ;; ret Returned
  | Submit => handleSubmit onSubmit
  | Settle o =>
      match pending w with
      | resume :: _ => resume o ;; ret Returned
      | [] => ret Returned
      end
  end.

(** One event: its handler runs, then the effects of the render that
    follows. *)
Definition run_event (w : World) (e : event) : async * State * list effect :=
  (a <- handler_of w e ;; costEffect (values (state w)) ;; ret a) (state w).

Definition react (w : World) (e : event) : World :=
  let r := run_event w e in
  let rest := match e with Settle _ => tl (pending w) | _ => pending w end in
  mkWorld (state_of r)
          (match result_of r with
           | Returned => rest
           | Awaiting resume => rest ++ [ resume ]
           end)
          (emitted w ++ effects_of r).

(** The mounted component: the first render, then the cost effect. *)
Definition mounted : World :=
  mkWorld (state_of (setMeetingCost (cost_of defaultValues) initialState)) [] [].

Inductive reachable : World -> Prop :=
| reachable_mounted : reachable mounted
| reachable_react w e :
    reachable w -> enabled w e = true -> reachable (react w e).

End Component.

(* ================================================================= *)
(** ** An email test to run the component with *)

Definition is_letter (c : ascii) : bool :=
  let n := nat_of_ascii c in
  ((65 <=? n) && (n <=? 90) || (97 <=? n) && (n <=? 122))%nat.
Definition is_digit (c : ascii) : bool :=
  let n := nat_of_ascii c in ((48 <=? n) && (n <=? 57))%nat.
Definition is_alnum (c : ascii) : bool := is_letter c || is_digit c.

Definition ascii_in (c : ascii) (s : string) : bool :=
  existsb (Ascii.eqb c) (list_ascii_of_string s).

(** [s] cut at the first [sep]: what comes before, and what comes after
    if [sep] occurs. *)
Fixpoint cut (sep : ascii) (s : string) : string * option string :=
  match s with
  | EmptyString => (EmptyString, None)
  | String c s' =>
      if Ascii.eqb c sep then (EmptyString, Some s')
      else let '(a, b) := cut sep s' in (String c a, b)
  end.

Fixpoint has_two_dots (s : string) : bool :=
  match s with
  | String "." (String "." _ as s') => true
  | String _ s' => has_two_dots s'
  | EmptyString => false
  end.

Definition local_part_ok (s : string) : bool :=
  let l := list_ascii_of_string s in
  match rev l with
  | [] => false
  | last :: _ =>
      forallb (fun c => is_alnum c || ascii_in c "_'+-.") l
      && (is_alnum last || ascii_in last "_+-")
      && negb (match l with "."%char :: _ => true | _ => false end)
  end.

Definition domain_label_ok (s : string) : bool :=
  match list_ascii_of_string s with
  | [] => false
  | c :: l => is_alnum c && forallb (fun c => is_alnum c || Ascii.eqb c "-") l
  end.

Definition top_label_ok (s : string) : bool :=
  let l := list_ascii_of_string s in
  forallb is_letter l && (2 <=? List.length l)%nat.

(** The labels of a domain: at least one ordinary label, then the top
    one. *)
Fixpoint domain_ok (fuel : nat) (seen : bool) (s : string) : bool :=
  match fuel with
  | O => false
  | S fuel' =>
      match cut "." s with
      | (l, None) => seen && top_label_ok l
      | (l, Some s') => domain_label_ok l && domain_ok fuel' true s'
      end
  end.

(** The test zod 3.22 makes for [.email()], written out by hand: no
    leading dot and no two dots in a row; a local part of letters, digits
    and [_'+-.] whose last character is none of ['] and [.]; one [@]; a
    domain of one or more labels (a letter or digit, then letters, digits
    and [-]), each followed by a dot, and a top label of two or more
    letters. *)
Definition zod_email (s : string) : bool :=
  negb (has_two_dots s)
  && match cut "@" s with
     | (l, Some d) => local_part_ok l && domain_ok (S (String.length d)) false d
     | (_, None) => false
     end.

(* ================================================================= *)
(** ** Vocabulary of the properties *)

(** The number of binary digits of a mantissa. *)
Definition digits (p : positive) : Z := Zpos (digits2_pos p).

(** The binary64 number [a * 2 ^ e] in normal form, for [a] of at most 53
    binary digits. *)
Definition dyadic (a : positive) (e : Z) : number :=
  S754_finite false (Z.to_pos (Zpos a * 2 ^ (prec - digits a))) (e - (prec - digits a)).

(** The values of [durations], each with the minutes it writes. *)
Definition minutes_of_durations : list (string * Z) :=
  [ ("15", 15); ("30", 30); ("45", 45); ("60", 60) ].

Definition is_request (e : effect) : bool :=
  match e with Fetch _ _ _ => true | _ => false end.

Definition is_finalization (e : effect) : bool :=
  match e with ConsoleLog _ | Confetti _ _ => true | _ => false end.

(** Every pending request is one started by [getSuggestedTimes]. *)
Definition only_resumes (l : list (fetch_outcome -> Handler unit)) : Prop :=
  Forall (fun k => k = getSuggestedTimes_resume) l.

(** The duration is one the select offers, when there is one. *)
Definition duration_offered (d : Draft) : Prop :=
  match duration d with
  | None => True
  | Some s => In s (map value durations)
  end.

Fixpoint all_enabled (is_email : string -> bool) (w : World) (es : list event) : bool :=
  match es with
  | [] => true
  | e :: es' => enabled w e && all_enabled is_email (react is_email w e) es'
  end.

Definition run_events (is_email : string -> bool) (w : World) (es : list event) : World :=
  fold_left (react is_email) es w.

(** *** A sample session *)

Definition sampleDraft : Draft :=
  mkDraft "Standup" (Some "Daily") (Some (mkDate (Some 1800000000000)))
          (Some "30") [ "a@b.com" ] (Some "UTC") "medium" "blue".

Definition sampleValues : Values.t :=
  Values.mk "Standup" (Some "Daily") (mkDate (Some 1800000000000))
            "30" [ "a@b.com" ] "UTC" "medium" "blue".

(** Suggestions are shown and [selected] is the selection. *)
Definition sampleState (selected : string) : State :=
  mkState [ "10:00 AM"; "2:00 PM" ] selected false false
          (cost_of sampleDraft) sampleDraft [].

Definition sampleEvents : list event :=
  [ ChangeParticipant 0 "a@b.com";
    ChangeTitle "Standup";
    SelectDate 0 (Some (mkDate (Some 1800000000000)));
    ClickTemplate quickSync;
    AddParticipant;
    ChangeParticipant 1 "c@d.org" ].

Definition sampleWorld : World := run_events zod_email mounted sampleEvents.

(* ================================================================= *)
(** ** What the component renders *)

(** The submit button: [disabled={loading}]; its content is the spinning
    clock while loading, else the label chosen by
    [suggestedTimes.length > 0]. *)
Inductive button_content : Type :=
| Spinner
| Text (label : string).

Record button : Type := mkButton { disabled : bool; content : button_content }.

Definition submitButton (st : State) : button :=
  mkButton (loading st)
           (if loading st then Spinner
            else if (0 <? List.length (suggestedTimes st))%nat
                 then Text "Schedule Meeting"
                 else Text "Get AI Suggestions").

(** The badges of the suggested times, rendered when
    [suggestedTimes.length > 0]: one badge per time, of the variant
    [selectedTime === time ? "default" : "outline"]. *)
Inductive badge_variant : Type := variant_default | variant_outline.

Definition suggestionBadges (st : State) : option (list (string * badge_variant)) :=
  if (0 <? List.length (suggestedTimes st))%nat
  then Some (map (fun time =>
                    (time, if String.eqb (selectedTime st) time
                           then variant_default else variant_outline))
                 (suggestedTimes st))
  else None.

(** The theme swatches: one per color, with the border
    [field.value === color.value ? "border-primary" : "border-transparent"]. *)
Definition themeSwatches (d : Draft) : list (string * string) :=
  map (fun color =>
         (Color.value color,
          if String.eqb (themeColor d) (Color.value color)
          then "border-primary" else "border-transparent"))
      themeColors.

(** *** Vocabulary of the further properties *)

(** What the controls can have stored in a draft: the timezone has no
    control, the priority comes from its select or a template, the theme
    color from a swatch, the description from its text area or a
    template, and the date from a day the calendar had enabled. *)
Definition from_controls (d : Draft) : Prop :=
  timezone d = Some "UTC"
  /\ In (priority d) priorities
  /\ In (themeColor d) (map Color.value themeColors)
  /\ description d <> None
  /\ match date d with
     | None => True
     | Some day => exists t, day = mkDate (Some t) /\ MakeDay 1900 1 1 * msPerDay <= t
     end.

(** The issues the schema can report on a draft stored by the controls. *)
Definition expected_issue (i : issue) : Prop :=
  i = mkIssue at_title "Meeting title must be at least 2 characters."
  \/ i = mkIssue at_date "A date is required."
  \/ i = mkIssue at_duration "Please select meeting duration"
  \/ i = mkIssue at_participants "At least one participant is required"
  \/ exists index, i = mkIssue (at_participant index) "Invalid email".

(** A parse result that is refused names an issue. *)
Definition names_an_issue {A} (p : parsed A) : Prop :=
  match p with
  | Invalid [] => False
  | _ => True
  end.

(** The request every submit of the component makes, up to its body. *)
Definition well_formed_request (e : effect) : Prop :=
  match e with
  | Fetch url method body =>
      url = "/api/suggest-times" /\ method = "POST" /\ body_timezone body = "UTC"
  | _ => True
  end.

(** The submit is idle or waits for one request. *)
Definition at_most_one_pending (w : World) : Prop :=
  (loading (state w) = false /\ pending w = [])
  \/ (loading (state w) = true /\ pending w = [ getSuggestedTimes_resume ]).

(* ================================================================= *)
(** * Properties *)

(** ** Exact binary64 arithmetic on short mantissas *)

Section Binary64.

Lemma digits2_pos_size p : digits2_pos p = Pos.size p.
Proof. induction p as [p IH|p IH|]; simpl; congruence. Qed.

Lemma digits_log2 p : digits p = Z.log2 (Zpos p) + 1.
Proof.
  unfold digits. rewrite digits2_pos_size.
  destruct p as [p|p|]; simpl; lia.
Qed.

Lemma digits_bounds p : 2 ^ (digits p - 1) <= Zpos p < 2 ^ digits p.
Proof.
  rewrite digits_log2.
  replace (Z.log2 (Zpos p) + 1 - 1) with (Z.log2 (Zpos p)) by lia.
  replace (Z.log2 (Zpos p) + 1) with (Z.succ (Z.log2 (Zpos p))) by lia.
  apply Z.log2_spec. lia.
Qed.

Lemma digits_pos p : 1 <= digits p.
Proof. unfold digits. lia. Qed.

Lemma digits_le_of_lt p d : 0 <= d -> Zpos p < 2 ^ d -> digits p <= d.
Proof.
  intros Hd Hp. pose proof (digits_bounds p) as [Hlo _].
  pose proof (digits_pos p).
  assert (2 ^ (digits p - 1) < 2 ^ d) as Hlt by lia.
  apply Z.pow_lt_mono_r_iff in Hlt; lia.
Qed.

Lemma digits_shift p j :
  0 <= j -> digits (Z.to_pos (Zpos p * 2 ^ j)) = digits p + j.
Proof.
  intros Hj. rewrite !digits_log2.
  assert (0 < 2 ^ j) by (apply Z.pow_pos_nonneg; lia).
  rewrite Z2Pos.id by nia.
  rewrite Z.log2_mul_pow2 by lia. lia.
Qed.

Lemma digits_mul_pow2 (M m : positive) k :
  0 <= k -> Zpos M = Zpos m * 2 ^ k -> digits M = digits m + k.
Proof.
  intros Hk HM. rewrite <- (digits_shift m k Hk), <- HM. reflexivity.
Qed.

Lemma digits_mul_lower a b : digits a + digits b - 1 <= digits (a * b).
Proof.
  pose proof (digits_bounds a) as Ha. pose proof (digits_bounds b) as Hb.
  pose proof (digits_bounds (a * b)) as Hab.
  pose proof (digits_pos a). pose proof (digits_pos b). pose proof (digits_pos (a * b)).
  assert (2 ^ (digits a - 1 + (digits b - 1)) < 2 ^ digits (a * b)) as Hlt.
  { rewrite Z.pow_add_r by lia. rewrite Pos2Z.inj_mul in Hab.
    assert (0 < 2 ^ (digits a - 1)) by (apply Z.pow_pos_nonneg; lia).
    assert (0 < 2 ^ (digits b - 1)) by (apply Z.pow_pos_nonneg; lia).
    nia. }
  apply Z.pow_lt_mono_r_iff in Hlt; lia.
Qed.

Lemma digits_mul_upper a b : digits (a * b) <= digits a + digits b.
Proof.
  pose proof (digits_bounds a) as Ha. pose proof (digits_bounds b) as Hb.
  pose proof (digits_bounds (a * b)) as Hab.
  pose proof (digits_pos a). pose proof (digits_pos b). pose proof (digits_pos (a * b)).
  assert (2 ^ (digits (a * b) - 1) < 2 ^ (digits a + digits b)) as Hlt.
  { rewrite Z.pow_add_r by lia. rewrite Pos2Z.inj_mul in Hab. nia. }
  apply Z.pow_lt_mono_r_iff in Hlt; lia.
Qed.

(** *** Shifting out zero bits loses nothing *)

Lemma iter_pos_nat {A} (f : A -> A) p x :
  iter_pos f p x = Nat.iter (Pos.to_nat p) f x.
Proof.
  revert x. induction p as [p IH|p IH|]; intros x; cbn [iter_pos].
  - rewrite !IH, Pos2Nat.inj_xI, Nat.iter_succ_r.
    replace (2 * Pos.to_nat p)%nat with (Pos.to_nat p + Pos.to_nat p)%nat by lia.
    now rewrite Nat.iter_add.
  - rewrite !IH, Pos2Nat.inj_xO.
    replace (2 * Pos.to_nat p)%nat with (Pos.to_nat p + Pos.to_nat p)%nat by lia.
    now rewrite Nat.iter_add.
  - reflexivity.
Qed.

Lemma shr_exact_nat n : forall m : positive,
  Nat.iter n shr_1 (Build_shr_record (Zpos m * 2 ^ Z.of_nat n) false false)
  = Build_shr_record (Zpos m) false false.
Proof.
  induction n as [|n IH]; intros m.
  - simpl. f_equal. lia.
  - rewrite Nat2Z.inj_succ, Z.pow_succ_r by lia.
    replace (Zpos m * (2 * 2 ^ Z.of_nat n)) with (Zpos (m~0) * 2 ^ Z.of_nat n) by lia.
    rewrite Nat.iter_succ, IH. reflexivity.
Qed.

Lemma shr_exact (m : positive) e k :
  0 <= k ->
  shr (Build_shr_record (Zpos m * 2 ^ k) false false) e k
  = (Build_shr_record (Zpos m) false false, e + k).
Proof.
  intros Hk. destruct k as [|p|p]; try lia.
  - simpl. rewrite Z.add_0_r. do 2 f_equal. lia.
  - unfold shr. rewrite iter_pos_nat.
    rewrite <- (positive_nat_Z p) at 1. rewrite shr_exact_nat. reflexivity.
Qed.

Lemma shr_none mrs e n : n <= 0 -> shr mrs e n = (mrs, e).
Proof. destruct n; [reflexivity| lia | reflexivity]. Qed.


(** *** Rounding a value that fits returns it *)

(** [m] has at most 53 digits, and exactly 53 when [k] bits are shifted
    out; the exponents stay within the normal range. *)
Lemma binary_round_aux_exact s (M m : positive) e k :
  0 <= k -> Zpos M = Zpos m * 2 ^ k ->
  digits m <= 53 -> (0 < k -> digits m = 53) ->
  -1074 <= e -> e + k <= 971 ->
  binary_round_aux prec emax s (Zpos M) e loc_Exact = S754_finite s m (e + k).
Proof.
  intros Hk HM Hd Hfull Hlo Hhi.
  pose proof (digits_mul_pow2 M m k Hk HM) as HD.
  unfold binary_round_aux, shr_fexp.
  cbn [Zdigits2 shr_record_of_loc]. fold (digits M). rewrite HD, HM.
  assert (Hshift : fexp prec emax (digits m + k + e) - e = k \/
                   (k = 0 /\ fexp prec emax (digits m + k + e) - e <= 0)).
  { unfold fexp, emin, prec, emax.
    destruct (Z.eq_dec k 0) as [->|Hk0].
    - right. split; [reflexivity|]. lia.
    - left. rewrite (Hfull ltac:(lia)). lia. }
  assert (Hfirst : shr (Build_shr_record (Zpos m * 2 ^ k) false false) e
                       (fexp prec emax (digits m + k + e) - e)
                   = (Build_shr_record (Zpos m) false false, e + k)).
  { destruct Hshift as [->|[-> Hle]].
    - apply shr_exact; assumption.
    - rewrite shr_none by assumption. rewrite Z.add_0_r. do 2 f_equal. simpl. lia. }
  rewrite Hfirst.
  cbn [shr_m loc_of_shr_record round_nearest_even Zdigits2 shr_record_of_loc].
  fold (digits m).
  rewrite shr_none by (unfold fexp, emin, prec, emax; lia).
  cbn [shr_m].
  replace (e + k <=? emax - prec) with true
    by (symmetry; apply Z.leb_le; unfold emax, prec; lia).
  reflexivity.
Qed.

Lemma dyadic_mantissa a :
  digits a <= 53 ->
  Zpos (Z.to_pos (Zpos a * 2 ^ (prec - digits a))) = Zpos a * 2 ^ (prec - digits a)
  /\ digits (Z.to_pos (Zpos a * 2 ^ (prec - digits a))) = 53.
Proof.
  intros Ha. unfold prec.
  assert (0 < 2 ^ (53 - digits a)) by (apply Z.pow_pos_nonneg; lia).
  split.
  - apply Z2Pos.id. nia.
  - rewrite digits_shift by lia. lia.
Qed.

Lemma Pos_iter_xO (a d : positive) : Zpos (Pos.iter xO a d) = Zpos a * 2 ^ Zpos d.
Proof.
  induction d as [|d IH] using Pos.peano_ind.
  - simpl. lia.
  - rewrite Pos.iter_succ, Pos2Z.inj_xO, IH, Pos2Z.inj_succ, Z.pow_succ_r by lia. lia.
Qed.

(** An array length, or any positive integer of at most 53 digits, is a
    number as it stands. *)
Lemma Number_of_Z_dyadic (a : positive) :
  digits a <= 53 -> Number_of_Z (Zpos a) = dyadic a 0.
Proof.
  intros Ha. pose proof (digits_pos a) as H1.
  destruct (dyadic_mantissa a Ha) as [Hm Hd].
  unfold Number_of_Z, binary_normalize, binary_round, shl_align.
  fold (digits a). rewrite Z.add_0_r.
  replace (fexp prec emax (digits a)) with (digits a - 53)
    by (unfold fexp, emin, prec, emax; lia).
  rewrite Z.sub_0_r.
  unfold dyadic. change (prec - digits a) with (53 - digits a) in *.
  destruct (digits a - 53) as [|p|p] eqn:E; try lia.
  - replace (53 - digits a) with 0 in * by lia.
    rewrite Z.pow_0_r, Z.mul_1_r in *. simpl Z.to_pos in *.
    rewrite (binary_round_aux_exact false a a 0 0); try lia.
    reflexivity.
  - replace (53 - digits a) with (Zpos p) in * by lia.
    rewrite (binary_round_aux_exact false _ (Pos.iter xO a p) (Z.neg p) 0); try lia.
    + replace (Z.neg p + 0) with (0 - Z.pos p) by lia.
      f_equal. apply Pos2Z.inj. rewrite Hm. apply Pos_iter_xO.
    + replace (digits (Pos.iter xO a p)) with 53; [lia|].
      rewrite <- Hd. f_equal. apply Pos2Z.inj. rewrite Hm. symmetry. apply Pos_iter_xO.
Qed.

(** A product whose mantissa still fits in 53 digits is exact. *)
Lemma number_mul_dyadic a b e f :
  digits (a * b) <= 53 -> -968 <= e + f <= 971 ->
  number_mul (dyadic a e) (dyadic b f) = dyadic (a * b) (e + f).
Proof.
  intros Hab Hrange.
  pose proof (digits_mul_lower a b) as Hlo. pose proof (digits_mul_upper a b) as Hup.
  pose proof (digits_pos a) as Ha1. pose proof (digits_pos b) as Hb1.
  assert (Ha : digits a <= 53) by lia. assert (Hb : digits b <= 53) by lia.
  destruct (dyadic_mantissa a Ha) as [Hma _].
  destruct (dyadic_mantissa b Hb) as [Hmb _].
  destruct (dyadic_mantissa (a * b) Hab) as [Hmab Hdab].
  unfold number_mul, dyadic, SFmul. cbn [xorb].
  change prec with 53 in Hma, Hmb, Hmab, Hdab.
  rewrite (binary_round_aux_exact false _
             (Z.to_pos (Zpos (a * b) * 2 ^ (prec - digits (a * b))))
             _ (53 - digits a - digits b + digits (a * b))).
  - f_equal. unfold prec. lia.
  - lia.
  - change prec with 53. rewrite Pos2Z.inj_mul, Hma, Hmb, Hmab.
    replace (53 - digits a)
      with ((53 - digits (a * b)) + (digits (a * b) - digits a)) at 1 by lia.
    replace (53 - digits a - digits b + digits (a * b))
      with ((digits (a * b) - digits a) + (53 - digits b)) by lia.
    assert (0 <= digits (a * b) - digits a) by lia.
    rewrite !Z.pow_add_r by lia. rewrite Pos2Z.inj_mul. ring.
  - change prec with 53. lia.
  - intros _. exact Hdab.
  - unfold prec. lia.
  - unfold prec. lia.
Qed.

Lemma number_value_dyadic a e :
  digits a <= 53 ->
  exists q, number_value (dyadic a e) = Some q
            /\ (q == inject_Z (Zpos a) * Qpower (inject_Z 2) e)%Q.
Proof.
  intros Ha. destruct (dyadic_mantissa a Ha) as [Hm _].
  unfold dyadic, number_value. eexists; split; [reflexivity|].
  cbn [cond_Zopp]. rewrite Hm. change prec with 53.
  rewrite inject_Z_mult, Zpower_Qpower by lia.
  unfold Z.sub at 2. rewrite Qpower_plus by discriminate.
  rewrite Qpower_opp.
  assert (~ (Qpower (inject_Z 2) (53 - digits a) == 0)%Q) as Hnz.
  { apply Qpower_not_0. discriminate. }
  field. exact Hnz.
Qed.

(** *** The cost *)

(** The quotient [duration / 60] for the four durations: a quarter, a
    half, three quarters and one. *)
Lemma quotient_dyadic s d :
  In (s, d) minutes_of_durations ->
  exists c e,
    number_div (parseInt (or_zero (Some s))) (Number_of_Z 60) = dyadic c e
    /\ Zpos c <= 3 /\ -2 <= e <= 0
    /\ (inject_Z d / 60 == inject_Z (Zpos c) * Qpower (inject_Z 2) e)%Q.
Proof.
  intros H. simpl in H.
  destruct H as [H|[H|[H|[H|[]]]]]; inversion H; subst; clear H.
  - exists 1%positive, (-2). repeat split; try lia; reflexivity.
  - exists 1%positive, (-1). repeat split; try lia; reflexivity.
  - exists 3%positive, (-2). repeat split; try lia; reflexivity.
  - exists 1%positive, 0. repeat split; try lia; reflexivity.
Qed.

Lemma averageHourlyRate_dyadic : averageHourlyRate = dyadic 100 0.
Proof. reflexivity. Qed.

Lemma cost_exact (n : nat) s d :
  In (s, d) minutes_of_durations ->
  Z.of_nat n <= 4294967295 ->
  exists q, number_value (cost n (Some s)) = Some q
            /\ (q == inject_Z (Z.of_nat n) * (inject_Z d / 60) * 100)%Q.
Proof.
  intros Hs Hn.
  destruct (quotient_dyadic s d Hs) as (c & e & Hq & Hc & He & Hv).
  unfold cost. rewrite Hq, averageHourlyRate_dyadic.
  destruct n as [|n'].
  - exists 0%Q. split.
    + reflexivity.
    + simpl inject_Z. ring.
  - set (N := Pos.of_succ_nat n').
    assert (HN : Z.of_nat (S n') = Zpos N) by (unfold N; lia).
    rewrite HN in *.
    assert (Zpos (N * c * 100) < 2 ^ 53).
    { rewrite !Pos2Z.inj_mul. change (2 ^ 53) with 9007199254740992. nia. }
    assert (digits (N * c * 100) <= 53) by (apply digits_le_of_lt; [lia|assumption]).
    assert (digits (N * c) <= 53).
    { apply digits_le_of_lt; [lia|]. rewrite Pos2Z.inj_mul.
      change (2 ^ 53) with 9007199254740992. nia. }
    assert (digits N <= 53).
    { apply digits_le_of_lt; [lia|]. change (2 ^ 53) with 9007199254740992. lia. }
    rewrite Number_of_Z_dyadic by assumption.
    rewrite number_mul_dyadic by (try assumption; lia).
    rewrite number_mul_dyadic by (try assumption; lia).
    destruct (number_value_dyadic (N * c * 100) (0 + e + 0)) as (q & Hq1 & Hq2);
      [assumption|].
    exists q. split; [exact Hq1|].
    rewrite Hq2, Hv, !Pos2Z.inj_mul, !inject_Z_mult.
    replace (0 + e + 0) with e by lia.
    change (inject_Z 100) with 100%Q. ring.
Qed.

End Binary64.

(* ================================================================= *)
(** ** The calendar *)

(** Claim C8: the calendar refuses a day before the current instant and a
    day before 1900-01-01; once the clock reads 1900-01-01 or later, the
    second test adds nothing: the predicate is the test against the
    current instant alone. *)
Theorem C8_calendar_bound_1900_is_dead (now : Z) (d : Date) :
  date_lt (Date_now now) date_1900_01_01 = false ->
  (date_lt d (Date_now now) = true -> calendar_disabled now d = true)
  /\ (date_lt d date_1900_01_01 = true -> calendar_disabled now d = true)
  /\ calendar_disabled now d = date_lt d (Date_now now).
Proof.
  intros Hnow. unfold calendar_disabled.
  repeat split.
  - intros ->. reflexivity.
  - intros ->. apply orb_true_r.
  - revert Hnow. unfold date_lt, Date_now, date_1900_01_01, Date_of_iso_day.
    cbn [time_value]. change (MakeDay 1900 1 1 * msPerDay) with (-2208988800000).
    destruct (time_value d) as [t|]; [|reflexivity].
    intros Hnow. apply Z.ltb_ge in Hnow.
    destruct (t <? now) eqn:E1; [reflexivity|].
    apply Z.ltb_ge in E1. simpl. apply Z.ltb_ge. lia.
Qed.

Lemma C8_witness :
  date_lt (Date_now 1800000000000) date_1900_01_01 = false
  /\ calendar_disabled 1800000000000 (mkDate (Some (-3000000000000)))
     = date_lt (mkDate (Some (-3000000000000))) (Date_now 1800000000000).
Proof.
  split; [reflexivity|].
  apply (C8_calendar_bound_1900_is_dead 1800000000000 (mkDate (Some (-3000000000000)))).
  reflexivity.
Defined.

(* ================================================================= *)
(** ** Templates *)

(** Claim C5: applying one of the three templates writes the template's
    duration, description and priority into the draft and leaves the
    title, date, participants, timezone and theme color as they were;
    Quick Sync writes the duration 15, the description Brief alignment
    meeting and the priority low. *)
Theorem C5_applyTemplate_frame (st : State) (t : Template.t) :
  In t meetingTemplates ->
  let d := values st in
  let d' := values (state_of (applyTemplate t st)) in
  In (Template.name t) [ "Quick Sync"; "Team Planning"; "Client Presentation" ]
  /\ duration d' = Some (Template.duration t)
  /\ description d' = Some (Template.description t)
  /\ priority d' = Template.priority t
  /\ title d' = title d
  /\ date d' = date d
  /\ participants d' = participants d
  /\ timezone d' = timezone d
  /\ themeColor d' = themeColor d
  /\ (Template.name t = "Quick Sync" ->
      duration d' = Some "15"
      /\ description d' = Some "Brief alignment meeting"
      /\ priority d' = "low").
Proof.
  intros Ht. simpl in Ht.
  destruct Ht as [<-|[<-|[<-|[]]]]; cbn;
    repeat split; auto; try discriminate.
Qed.

Lemma C5_witness :
  In quickSync meetingTemplates
  /\ duration (values (state_of (applyTemplate quickSync (sampleState EmptyString))))
     = Some "15"
  /\ title (values (state_of (applyTemplate quickSync (sampleState EmptyString))))
     = "Standup".
Proof.
  assert (Hin : In quickSync meetingTemplates) by (left; reflexivity).
  destruct (C5_applyTemplate_frame (sampleState EmptyString) quickSync Hin)
    as (_ & Hd & _ & _ & Ht & _).
  split; [exact Hin|]. split; [exact Hd | exact Ht].
Defined.

(* ================================================================= *)
(** ** The schema *)

Section SchemaFacts.

Variable is_email : string -> bool.

Lemma ap_invalid_r {A B} (f : parsed (A -> B)) l :
  f <*> Invalid l = Invalid (issues_of f ++ l).
Proof. destruct f; reflexivity. Qed.

Lemma ap_invalid_l {A B} l (x : parsed A) :
  @Invalid (A -> B) l <*> x = Invalid (l ++ issues_of x).
Proof. destruct x; simpl; [rewrite app_nil_r|]; reflexivity. Qed.

Lemma schema_participants_valid l v :
  schema_participants is_email l = Valid v -> v = l /\ l <> [].
Proof.
  unfold schema_participants.
  destruct l as [|x l].
  - simpl. discriminate.
  - destruct (_ ++ _); [|discriminate].
    intros H. inversion H. split; [reflexivity|discriminate].
Qed.

(** The parsed values are the values of the draft. *)
Lemma formSchema_valid d v :
  formSchema is_email d = Valid v ->
  Values.title v = title d
  /\ Values.description v = description d
  /\ Some (Values.date v) = date d
  /\ Some (Values.duration v) = duration d
  /\ Values.participants v = participants d
  /\ Some (Values.timezone v) = timezone d
  /\ Values.priority v = priority d
  /\ Values.themeColor v = themeColor d.
Proof.
  unfold formSchema, schema_title, schema_description, schema_date,
    schema_duration, schema_timezone, schema_priority, schema_themeColor.
  destruct (schema_participants is_email (participants d)) as [ps|] eqn:Hp.
  - apply schema_participants_valid in Hp. destruct Hp as [-> _].
    destruct (Z.of_nat (String.length (title d)) <? 2);
      destruct (date d) as [[[t|]]|];
      destruct (duration d);
      destruct (timezone d);
      destruct (string_in (priority d) priorities);
      simpl; intros H; inversion H; subst; simpl; repeat split; reflexivity.
  - destruct (Z.of_nat (String.length (title d)) <? 2);
      destruct (date d) as [[[t|]]|];
      destruct (duration d);
      destruct (timezone d);
      destruct (string_in (priority d) priorities);
      simpl; intros H; discriminate H.
Qed.

(** An empty participant list is refused with the message of [min(1)]. *)
Lemma formSchema_no_participant d :
  participants d = [] ->
  exists issues,
    formSchema is_email d = Invalid issues
    /\ In (mkIssue at_participants "At least one participant is required") issues.
Proof.
  intros Hnone. unfold formSchema. rewrite Hnone.
  change (schema_participants is_email [])
    with (@Invalid (list string)
            [ mkIssue at_participants "At least one participant is required" ]).
  rewrite ap_invalid_r, !ap_invalid_l.
  eexists. split; [reflexivity|].
  rewrite !in_app_iff. do 3 left. right. left. reflexivity.
Qed.

Lemma string_in_In s l : string_in s l = true -> In s l.
Proof.
  unfold string_in. intros H. apply existsb_exists in H.
  destruct H as (x & Hx & Heq). apply String.eqb_eq in Heq. subst. exact Hx.
Qed.

(** *** What a submit does *)

Lemma handleSubmit_valid st v :
  formSchema is_email (values st) = Valid v ->
  handleSubmit is_email onSubmit st
  = let st1 := state_of (setErrors [] st) in
    if String.eqb (selectedTime st) EmptyString
    then (Awaiting getSuggestedTimes_resume,
          state_of (setLoading true st1),
          [ Fetch "/api/suggest-times" "POST"
              (mkBody (Values.participants v) (Values.duration v) (Values.timezone v)) ])
    else (Returned, st1,
          [ Confetti 100 70; ConsoleLog (mkScheduled v (selectedTime st)) ]).
Proof.
  intros Hv. unfold handleSubmit, bind, get. rewrite Hv.
  unfold onSubmit, bind, get. cbn.
  destruct (String.eqb (selectedTime st) EmptyString); reflexivity.
Qed.

Lemma handleSubmit_invalid st issues :
  formSchema is_email (values st) = Invalid issues ->
  handleSubmit is_email onSubmit st = (Returned, state_of (setErrors issues st), []).
Proof.
  intros Hv. unfold handleSubmit, bind, get. rewrite Hv. reflexivity.
Qed.

End SchemaFacts.

(* ================================================================= *)
(** ** Submitting the form *)

(** Claim C9: the form starts with one participant entry, the empty
    string, so the rule of at least one participant is met from the start
    while the entry is refused as an email (an email test accepts no
    empty string); the other defaults are an empty title and description,
    the timezone UTC, the priority medium and the theme color blue, with
    no date and no duration. *)
Theorem C9_default_values (is_email : string -> bool) :
  is_email EmptyString = false ->
  values initialState = defaultValues
  /\ values (state mounted) = defaultValues
  /\ participants defaultValues = [ EmptyString ]
  /\ participants defaultValues <> []
  /\ ~ In (mkIssue at_participants "At least one participant is required")
          (issues_of (formSchema is_email defaultValues))
  /\ In (mkIssue (at_participant 0) "Invalid email")
        (issues_of (formSchema is_email defaultValues))
  /\ In (mkIssue (at_participant 0) "Invalid email")
        (errors (state_of (handleSubmit is_email onSubmit (state mounted))))
  /\ effects_of (handleSubmit is_email onSubmit (state mounted)) = []
  /\ title defaultValues = EmptyString
  /\ description defaultValues = Some EmptyString
  /\ timezone defaultValues = Some "UTC"
  /\ priority defaultValues = "medium"
  /\ themeColor defaultValues = "blue"
  /\ date defaultValues = None
  /\ duration defaultValues = None.
Proof.
  intros Hempty.
  assert (Hparse : formSchema is_email defaultValues
                   = Invalid [ mkIssue at_title "Meeting title must be at least 2 characters.";
                               mkIssue at_date "A date is required.";
                               mkIssue at_duration "Please select meeting duration";
                               mkIssue (at_participant 0) "Invalid email" ]).
  { unfold formSchema, schema_participants. cbn. rewrite Hempty. reflexivity. }
  assert (Hsubmit : handleSubmit is_email onSubmit (state mounted)
                    = (Returned,
                       state_of (setErrors (issues_of (formSchema is_email defaultValues))
                                           (state mounted)),
                       [])).
  { rewrite Hparse. apply handleSubmit_invalid. exact Hparse. }
  repeat split; try reflexivity; try discriminate.
  - rewrite Hparse. cbn. intros [H|[H|[H|[H|[]]]]]; discriminate H.
  - rewrite Hparse. cbn. auto.
  - rewrite Hsubmit, Hparse. cbn. auto.
  - rewrite Hsubmit. reflexivity.
Qed.

Lemma C9_witness :
  zod_email EmptyString = false
  /\ In (mkIssue (at_participant 0) "Invalid email")
        (issues_of (formSchema zod_email defaultValues)).
Proof.
  assert (H : zod_email EmptyString = false) by reflexivity.
  split; [exact H|].
  apply (C9_default_values zod_email H).
Defined.

(** Claim C3: a submit with an empty participant list fails validation
    with the message asking for at least one participant; the submission
    stops there: no request is made, whatever the network would have
    answered, and the draft, the suggestions, the selection and the
    loading flag stay as they were. *)
Theorem C3_no_participant_no_request (is_email : string -> bool) (st : State) :
  participants (values st) = [] ->
  let r := handleSubmit is_email onSubmit st in
  (exists issues,
      formSchema is_email (values st) = Invalid issues
      /\ In (mkIssue at_participants "At least one participant is required") issues
      /\ errors (state_of r) = issues)
  /\ result_of r = Returned
  /\ effects_of r = []
  /\ (forall o, effects_of (submit_and_settle is_email o st) = [])
  /\ values (state_of r) = values st
  /\ suggestedTimes (state_of r) = suggestedTimes st
  /\ selectedTime (state_of r) = selectedTime st
  /\ loading (state_of r) = loading st.
Proof.
  intros Hnone.
  destruct (formSchema_no_participant is_email (values st) Hnone)
    as (issues & Hparse & Hin).
  unfold submit_and_settle, settled, bind.
  rewrite (handleSubmit_invalid is_email st issues Hparse). cbn.
  repeat split; auto.
  exists issues. auto.
Qed.

Lemma C3_witness :
  participants (with_participants [] sampleDraft) = []
  /\ effects_of (handleSubmit zod_email onSubmit
                   (mkState [] EmptyString false false (Number_of_Z 0)
                            (with_participants [] sampleDraft) [])) = [].
Proof.
  split; [reflexivity|].
  apply (C3_no_participant_no_request zod_email
           (mkState [] EmptyString false false (Number_of_Z 0)
                    (with_participants [] sampleDraft) [])).
  reflexivity.
Defined.

(** Claim C1: for a draft the schema accepts, a submit with no time
    selected makes one request, with the participants, duration and
    timezone of the draft, and neither logs a record nor fires the
    confetti, however the request ends; a submit with a time selected
    fires the confetti and logs the record made of the parsed values and
    the selected time.  The parsed values are the fields of the draft,
    and the draft itself is not touched. *)
Theorem C1_submit_requests_then_finalizes
  (is_email : string -> bool) (st : State) (v : Values.t) :
  formSchema is_email (values st) = Valid v ->
  let r := handleSubmit is_email onSubmit st in
  let request :=
    Fetch "/api/suggest-times" "POST"
      (mkBody (participants (values st)) (Values.duration v) (Values.timezone v)) in
  (Values.title v = title (values st)
   /\ Values.description v = description (values st)
   /\ Some (Values.date v) = date (values st)
   /\ Some (Values.duration v) = duration (values st)
   /\ Values.participants v = participants (values st)
   /\ Some (Values.timezone v) = timezone (values st)
   /\ Values.priority v = priority (values st)
   /\ Values.themeColor v = themeColor (values st))
  /\ values (state_of r) = values st
  /\ (selectedTime st = EmptyString ->
      effects_of r = [ request ]
      /\ result_of r = Awaiting getSuggestedTimes_resume
      /\ forall o,
          List.length (filter is_request (effects_of (submit_and_settle is_email o st)))
          = 1%nat
          /\ filter is_finalization (effects_of (submit_and_settle is_email o st)) = []
          /\ values (state_of (submit_and_settle is_email o st)) = values st)
  /\ (selectedTime st <> EmptyString ->
      effects_of r = [ Confetti 100 70; ConsoleLog (mkScheduled v (selectedTime st)) ]
      /\ result_of r = Returned).
Proof.
  intros Hv r request.
  pose proof (formSchema_valid is_email _ _ Hv) as Hfields.
  split; [exact Hfields|].
  destruct Hfields as (_ & _ & _ & _ & Hp & _).
  subst r request. unfold submit_and_settle, settled, bind.
  rewrite (handleSubmit_valid is_email st v Hv). cbn zeta.
  split; [|split].
  - destruct (String.eqb (selectedTime st) EmptyString); reflexivity.
  - intros Hsel. rewrite Hsel, <- Hp. cbn.
    repeat split; destruct o; reflexivity.
  - intros Hsel. apply String.eqb_neq in Hsel. rewrite Hsel.
    repeat split.
Qed.

Lemma C1_witness :
  formSchema zod_email (values (sampleState "2:00 PM")) = Valid sampleValues
  /\ effects_of (handleSubmit zod_email onSubmit (sampleState "2:00 PM"))
     = [ Confetti 100 70; ConsoleLog (mkScheduled sampleValues "2:00 PM") ].
Proof.
  assert (H : formSchema zod_email (values (sampleState "2:00 PM")) = Valid sampleValues)
    by reflexivity.
  split; [exact H|].
  destruct (C1_submit_requests_then_finalizes zod_email (sampleState "2:00 PM")
              sampleValues H) as (_ & _ & _ & Hfinal).
  apply Hfinal. discriminate.
Defined.

(* ================================================================= *)
(** ** The suggestion request *)

(** Claim C4: when the request fails, in transport or in decoding, the
    error goes to the console and nowhere else: the suggestions, the form
    errors, the draft and the selection are as before, and the loading
    flag is down; the loading flag is down after every outcome. *)
Theorem C4_failed_request_is_swallowed (st : State) (o : fetch_outcome) :
  (o = FetchRejected \/ o = JsonRejected) ->
  let r := getSuggestedTimes_resume o st in
  (suggestedTimes (state_of r) = suggestedTimes st
   /\ loading (state_of r) = false
   /\ effects_of r = [ ConsoleError "Error getting suggested times:" ]
   /\ errors (state_of r) = errors st
   /\ values (state_of r) = values st
   /\ selectedTime (state_of r) = selectedTime st)
  /\ (forall v,
        let r' := settled (getSuggestedTimes v) o st in
        suggestedTimes (state_of r') = suggestedTimes st
        /\ loading (state_of r') = false
        /\ errors (state_of r') = errors st
        /\ effects_of r'
           = [ Fetch "/api/suggest-times" "POST"
                 (mkBody (Values.participants v) (Values.duration v) (Values.timezone v));
               ConsoleError "Error getting suggested times:" ])
  /\ (forall o' st' v,
        loading (state_of (getSuggestedTimes_resume o' st')) = false
        /\ loading (state_of (settled (getSuggestedTimes v) o' st')) = false).
Proof.
  intros Ho. repeat split; try (destruct Ho; subst o; reflexivity).
  - destruct o'; reflexivity.
  - destruct o'; reflexivity.
Qed.

Lemma C4_witness :
  suggestedTimes (state_of (getSuggestedTimes_resume FetchRejected (sampleState EmptyString)))
  = [ "10:00 AM"; "2:00 PM" ]
  /\ loading (state_of (getSuggestedTimes_resume FetchRejected (sampleState EmptyString)))
     = false.
Proof.
  destruct (C4_failed_request_is_swallowed (sampleState EmptyString) FetchRejected
              (or_introl eq_refl)) as ((Hs & Hl & _) & _).
  split; [exact Hs | exact Hl].
Defined.

(* ================================================================= *)
(** ** The component as a whole *)

Section Transitions.

Variable is_email : string -> bool.

Lemma same_deps_refl d : same_deps d d = true.
Proof.
  unfold same_deps.
  destruct (list_eq_dec string_dec (participants d) (participants d)) as [_|Hn];
    [|contradiction Hn; reflexivity].
  destruct (duration d) as [s|]; [apply String.eqb_refl | reflexivity].
Qed.

Lemma same_deps_cost before after :
  same_deps before after = true -> cost_of before = cost_of after.
Proof.
  unfold same_deps, cost_of. intros H. apply andb_prop in H. destruct H as [Hp Hd].
  destruct (list_eq_dec string_dec (participants before) (participants after)) as [->|];
    [|discriminate].
  destruct (duration before) as [a|], (duration after) as [b|]; try discriminate.
  - apply String.eqb_eq in Hd. subst. reflexivity.
  - reflexivity.
Qed.

Lemma costEffect_run before st :
  costEffect before st
  = (tt,
     (if same_deps before (values st) then st
      else state_of (setMeetingCost (cost_of (values st)) st)),
     []).
Proof.
  unfold costEffect, bind, get. destruct (same_deps before (values st)); reflexivity.
Qed.

(** The cost effect writes the stored cost and nothing else. *)
Lemma costEffect_frame before st :
  let st' := state_of (costEffect before st) in
  values st' = values st /\ selectedTime st' = selectedTime st
  /\ suggestedTimes st' = suggestedTimes st /\ loading st' = loading st.
Proof.
  rewrite costEffect_run. cbn [state_of fst snd].
  destruct (same_deps before (values st)); repeat split.
Qed.

Lemma run_event_split w e :
  let h := handler_of is_email w e (state w) in
  run_event is_email w e
  = (result_of h,
     state_of (costEffect (values (state w)) (state_of h)),
     effects_of h).
Proof.
  unfold run_event, bind. destruct (handler_of is_email w e (state w)) as [[a st1] out].
  cbn [state_of result_of effects_of fst snd].
  rewrite costEffect_run. cbn [ret snd fst]. rewrite app_nil_r. reflexivity.
Qed.

Lemma react_state w e :
  state (react is_email w e)
  = state_of (costEffect (values (state w)) (state_of (handler_of is_email w e (state w)))).
Proof. unfold react. cbn [state]. rewrite run_event_split. reflexivity. Qed.

(** Case analysis on what the schema says of the draft of [st], with the
    submit run accordingly. *)
Ltac submit_cases st :=
  let v := fresh "v" in
  let issues := fresh "issues" in
  let Hv := fresh "Hv" in
  destruct (formSchema is_email (values st)) as [v|issues] eqn:Hv;
  [ rewrite (handleSubmit_valid is_email st v Hv); cbn zeta
  | rewrite (handleSubmit_invalid is_email st issues Hv) ].

(** What a handler can do: it leaves the stored cost alone, any request it
    starts is resumed by [getSuggestedTimes_resume], and it emits a request
    only with the selection empty. *)
Lemma handler_of_spec w e :
  only_resumes (pending w) ->
  let h := handler_of is_email w e (state w) in
  meetingCost (state_of h) = meetingCost (state w)
  /\ (result_of h = Returned \/ result_of h = Awaiting getSuggestedTimes_resume)
  /\ (forall u m b,
        In (Fetch u m b) (effects_of h) ->
        selectedTime (state w) = EmptyString /\ selectedTime (state_of h) = EmptyString).
Proof.
  intros Hpend. destruct e; cbn [handler_of];
    try (cbn; repeat split; auto; contradiction).
  - (* Submit *)
    submit_cases (state w).
    + destruct (String.eqb (selectedTime (state w)) EmptyString) eqn:Hsel; cbn.
      * apply String.eqb_eq in Hsel. repeat split; auto.
      * repeat split; auto; destruct H as [H|[H|[]]]; discriminate H.
    + cbn. repeat split; auto; destruct H.
  - (* Settle *)
    destruct Hpend as [|k l Hk Hl]; cbn.
    + repeat split; auto; destruct H.
    + subst k. destruct o; cbn; repeat split; auto;
        repeat (destruct H as [H|H]; try discriminate H); destruct H.
Qed.

Lemma react_pending w e :
  only_resumes (pending w) -> only_resumes (pending (react is_email w e)).
Proof.
  intros Hpend. unfold react. cbn [pending]. rewrite run_event_split.
  destruct (handler_of_spec w e Hpend) as (_ & Hres & _).
  destruct (handler_of is_email w e (state w)) as [[a st1] out].
  cbn [result_of fst] in *.
  assert (Hrest : only_resumes (match e with Settle _ => tl (pending w) | _ => pending w end)).
  { destruct e; try exact Hpend. destruct Hpend; [constructor|assumption]. }
  destruct Hres as [-> | ->]; [exact Hrest|].
  apply Forall_app. split; [exact Hrest|]. constructor; [reflexivity|constructor].
Qed.

Lemma reachable_pending w :
  reachable is_email w -> only_resumes (pending w).
Proof.
  induction 1 as [|w e Hw IH He].
  - constructor.
  - apply react_pending. exact IH.
Qed.

(** The stored cost is the cost of the current draft. *)
Lemma reachable_cost w :
  reachable is_email w -> meetingCost (state w) = cost_of (values (state w)).
Proof.
  induction 1 as [|w e Hw IH He].
  - reflexivity.
  - rewrite react_state, costEffect_run. cbn [state_of fst snd].
    destruct (handler_of_spec w e (reachable_pending w Hw)) as (Hc & _ & _).
    destruct (same_deps _ _) eqn:Hdeps.
    + rewrite Hc, IH. apply same_deps_cost. exact Hdeps.
    + reflexivity.
Qed.

(** The controls only ever store a duration the select offers. *)
Lemma reachable_duration w :
  reachable is_email w -> duration_offered (values (state w)).
Proof.
  induction 1 as [|w e Hw IH He].
  - exact I.
  - rewrite react_state.
    destruct (costEffect_frame (values (state w))
                (state_of (handler_of is_email w e (state w)))) as (-> & _).
    pose proof (reachable_pending w Hw) as Hpend.
    unfold duration_offered in *.
    destruct e; cbn [handler_of]; try exact IH.
    + (* ChangeDuration *)
      change (In v (map value durations)). apply string_in_In. exact He.
    + (* ClickTemplate *)
      cbn. cbn in He. repeat (apply orb_prop in He; destruct He as [He|He]);
        try discriminate He;
        unfold template_eqb in He;
        repeat (apply andb_prop in He; destruct He as [He ?]);
        match goal with
        | H : String.eqb (Template.duration template) _ = true |- _ =>
            apply String.eqb_eq in H; rewrite H; cbn; auto
        end.
    + (* Submit *)
      submit_cases (state w); [|exact IH].
      destruct (String.eqb (selectedTime (state w)) EmptyString); exact IH.
    + (* Settle *)
      destruct Hpend as [|k l Hk Hl]; [exact IH|].
      subst k. destruct o; exact IH.
Qed.

Lemma reachable_run_events es : forall w,
  reachable is_email w -> all_enabled is_email w es = true ->
  reachable is_email (run_events is_email w es).
Proof.
  induction es as [|e es IH]; intros w Hw Hen.
  - exact Hw.
  - cbn in Hen. apply andb_prop in Hen. destruct Hen as [He Hes].
    apply IH; [|exact Hes]. apply reachable_react; assumption.
Qed.

End Transitions.

(** Claim C10: a submit with a time selected changes no state: the draft,
    the suggestions, the selection, the loading flag, the theme and the
    stored cost are as before, and no request is left pending; nothing
    is reset, so the same submit again logs the same record. *)
Theorem C10_finalization_changes_nothing
  (is_email : string -> bool) (st : State) (v : Values.t) :
  formSchema is_email (values st) = Valid v ->
  selectedTime st <> EmptyString ->
  let r := handleSubmit is_email onSubmit st in
  let record := ConsoleLog (mkScheduled v (selectedTime st)) in
  effects_of r = [ Confetti 100 70; record ]
  /\ result_of r = Returned
  /\ values (state_of r) = values st
  /\ suggestedTimes (state_of r) = suggestedTimes st
  /\ selectedTime (state_of r) = selectedTime st
  /\ loading (state_of r) = loading st
  /\ isDarkMode (state_of r) = isDarkMode st
  /\ meetingCost (state_of r) = meetingCost st
  /\ effects_of (handleSubmit is_email onSubmit (state_of r)) = [ Confetti 100 70; record ]
  /\ state_of (handleSubmit is_email onSubmit (state_of r)) = state_of r
  /\ (forall w,
        state w = st ->
        state (react is_email w Submit) = state_of r
        /\ pending (react is_email w Submit) = pending w
        /\ emitted (react is_email w Submit) = emitted w ++ [ Confetti 100 70; record ]).
Proof.
  intros Hv Hsel r record. subst r record.
  pose proof Hsel as Hneq. apply String.eqb_neq in Hneq.
  rewrite (handleSubmit_valid is_email st v Hv). cbn zeta. rewrite Hneq.
  cbn [effects_of result_of state_of fst snd setErrors modify values suggestedTimes
         selectedTime loading isDarkMode meetingCost].
  repeat split.
  - rewrite (handleSubmit_valid is_email _ v) by exact Hv.
    cbn. rewrite Hneq. reflexivity.
  - rewrite (handleSubmit_valid is_email _ v) by exact Hv.
    cbn. rewrite Hneq. reflexivity.
  - rewrite react_state. cbn [handler_of]. rewrite H.
    rewrite (handleSubmit_valid is_email st v Hv). cbn zeta. rewrite Hneq.
    rewrite costEffect_run. cbn [state_of fst snd values].
    rewrite same_deps_refl. reflexivity.
  - unfold react. cbn [pending]. rewrite run_event_split. cbn [handler_of]. rewrite H.
    rewrite (handleSubmit_valid is_email st v Hv). cbn zeta. rewrite Hneq. reflexivity.
  - unfold react. cbn [emitted]. rewrite run_event_split. cbn [handler_of]. rewrite H.
    rewrite (handleSubmit_valid is_email st v Hv). cbn zeta. rewrite Hneq. reflexivity.
Qed.

Lemma C10_witness :
  formSchema zod_email (values (sampleState "2:00 PM")) = Valid sampleValues
  /\ state_of (handleSubmit zod_email onSubmit (sampleState "2:00 PM"))
     = sampleState "2:00 PM"
  /\ effects_of (handleSubmit zod_email onSubmit
                   (state_of (handleSubmit zod_email onSubmit (sampleState "2:00 PM"))))
     = [ Confetti 100 70; ConsoleLog (mkScheduled sampleValues "2:00 PM") ].
Proof.
  assert (H : formSchema zod_email (values (sampleState "2:00 PM")) = Valid sampleValues)
    by reflexivity.
  assert (Hsel : selectedTime (sampleState "2:00 PM") <> EmptyString) by discriminate.
  destruct (C10_finalization_changes_nothing zod_email (sampleState "2:00 PM")
              sampleValues H Hsel) as (_ & _ & _ & _ & _ & _ & _ & _ & Hagain & _).
  split; [exact H|]. split; [reflexivity | exact Hagain].
Defined.


Section SelectionFacts.

Variable is_email : string -> bool.



End SelectionFacts.



(** Claim C7, as stated, fails: a draft whose duration is the string 90,
    which is none of the four, passes the schema. *)
Lemma C7_counterexample :
  ~ In "90" (map value durations)
  /\ schema_duration (duration (with_duration (Some "90") sampleDraft)) = Valid "90"
  /\ exists v, formSchema zod_email (with_duration (Some "90") sampleDraft) = Valid v.
Proof.
  split; [|split].
  - cbn. intros [H|[H|[H|[H|[]]]]]; discriminate H.
  - reflexivity.
  - eexists. reflexivity.
Qed.

(** Claim C7, amended: validation of the duration succeeds exactly when
    a duration is present, whatever the string, and fails with the
    message Please select meeting duration when it is absent; the four
    durations are kept by the controls: in every state the mounted
    component reaches, the duration is absent or one of 15, 30, 45
    and 60. *)
Theorem C7_duration_required_only (is_email : string -> bool) :
  (forall d : Draft,
      (exists v, schema_duration (duration d) = Valid v) <-> (exists s, duration d = Some s))
  /\ (forall d : Draft,
        duration d = None ->
        schema_duration (duration d)
        = Invalid [ mkIssue at_duration "Please select meeting duration" ])
  /\ (forall w,
        reachable is_email w ->
        duration (values (state w)) = None
        \/ exists s, duration (values (state w)) = Some s
                     /\ In s [ "15"; "30"; "45"; "60" ]).
Proof.
  split; [|split].
  - intros d. split.
    + intros [v Hv]. destruct (duration d) as [s|]; [eauto|discriminate Hv].
    + intros [s Hs]. rewrite Hs. eexists. reflexivity.
  - intros d ->. reflexivity.
  - intros w Hw. apply reachable_duration in Hw. unfold duration_offered in Hw.
    destruct (duration (values (state w))) as [s|]; [right|left; reflexivity].
    exists s. split; [reflexivity|exact Hw].
Qed.

Lemma C7_witness :
  reachable zod_email sampleWorld
  /\ (duration (values (state sampleWorld)) = None
      \/ exists s, duration (values (state sampleWorld)) = Some s
                   /\ In s [ "15"; "30"; "45"; "60" ]).
Proof.
  assert (Hr : reachable zod_email sampleWorld).
  { apply reachable_run_events; [apply reachable_mounted | reflexivity]. }
  split; [exact Hr|].
  destruct (C7_duration_required_only zod_email) as (_ & _ & Hreach).
  exact (Hreach sampleWorld Hr).
Defined.

(** Claim C2: for a participant list of [n] entries, [n] within the length
    of an array, and each of the durations 15, 30, 45 and 60, the cost the
    effect computes is a finite number whose value is the rational
    [n * (d / 60) * 100], with no rounding; three participants for 60
    minutes cost 300.  The cost depends on the draft through the length
    of the participant list and the duration only, and in every state the
    mounted component reaches the stored cost is the cost of the current
    draft. *)
Theorem C2_meeting_cost_exact (is_email : string -> bool) :
  (forall (n : nat) (s : string) (d : Z),
      In (s, d) minutes_of_durations ->
      Z.of_nat n <= 4294967295 ->
      parseInt (or_zero (Some s)) = Number_of_Z d
      /\ exists q, number_value (cost n (Some s)) = Some q
                   /\ (q == inject_Z (Z.of_nat n) * (inject_Z d / 60) * 100)%Q)
  /\ map fst minutes_of_durations = map value durations
  /\ map snd minutes_of_durations = [ 15; 30; 45; 60 ]
  /\ cost 3 (Some "60") = Number_of_Z 300
  /\ (forall d1 d2 : Draft,
        List.length (participants d1) = List.length (participants d2) ->
        duration d1 = duration d2 ->
        cost_of d1 = cost_of d2)
  /\ (forall w, reachable is_email w -> meetingCost (state w) = cost_of (values (state w))).
Proof.
  split; [|repeat split].
  - intros n s d Hs Hn. split.
    + cbn in Hs. destruct Hs as [H|[H|[H|[H|[]]]]]; inversion H; reflexivity.
    + apply cost_exact; assumption.
  - intros d1 d2 Hl Hd. unfold cost_of. rewrite Hl, Hd. reflexivity.
  - apply reachable_cost.
Qed.

Lemma C2_witness :
  (exists q, number_value (cost 3 (Some "45")) = Some q
             /\ (q == inject_Z 3 * (inject_Z 45 / 60) * 100)%Q)
  /\ meetingCost (state sampleWorld) = cost_of (values (state sampleWorld)).
Proof.
  destruct (C2_meeting_cost_exact zod_email) as (Hexact & _ & _ & _ & _ & Hreach).
  split.
  - apply (Hexact 3%nat "45" 45).
    + right. right. left. reflexivity.
    + cbn. lia.
  - apply Hreach. apply reachable_run_events; [apply reachable_mounted | reflexivity].
Defined.

(* ================================================================= *)
(** * Further properties *)

(** ** The schema, field by field *)

Section SchemaCoverage.

Variable is_email : string -> bool.

Lemma issues_of_ap {A B} (f : parsed (A -> B)) (x : parsed A) :
  issues_of (f <*> x) = issues_of f ++ issues_of x.
Proof.
  destruct f, x; simpl; try reflexivity. symmetry. apply app_nil_r.
Qed.

Lemma ap_valid_inv {A B} (f : parsed (A -> B)) (x : parsed A) b :
  f <*> x = Valid b -> exists g a, f = Valid g /\ x = Valid a /\ b = g a.
Proof.
  destruct f as [g|], x as [a|]; simpl; intros H; inversion H.
  exists g, a. auto.
Qed.

Lemma issues_of_schema_participants l :
  issues_of (schema_participants is_email l)
  = (if (Z.of_nat (List.length l) <? 1)
     then [ mkIssue at_participants "At least one participant is required" ]
     else []) ++ email_issues is_email 0 l.
Proof.
  unfold schema_participants. destruct (_ ++ _); reflexivity.
Qed.

Lemma email_issues_In k l i :
  In i (email_issues is_email k l) <->
  exists j s, i = mkIssue (at_participant (k + j)) "Invalid email"
              /\ nth_error l j = Some s /\ is_email s = false.
Proof.
  revert k. induction l as [|x l IH]; intros k; cbn [email_issues].
  - split; [intros []|]. intros (j & s & _ & Hn & _). destruct j; discriminate Hn.
  - rewrite in_app_iff, IH. split.
    + intros [H|(j & s & -> & Hn & He)].
      * destruct (is_email x) eqn:Ex; [destruct H|].
        destruct H as [<-|[]]. exists 0%nat, x. rewrite Nat.add_0_r. auto.
      * exists (S j), s. rewrite Nat.add_succ_r. auto.
    + intros (j & s & -> & Hn & He). destruct j as [|j].
      * left. cbn in Hn. inversion Hn; subst. rewrite He, Nat.add_0_r. left. reflexivity.
      * right. exists j, s. rewrite Nat.add_succ_r. auto.
Qed.

Lemma email_issues_nil k l :
  email_issues is_email k l = [] <-> Forall (fun s => is_email s = true) l.
Proof.
  revert k. induction l as [|x l IH]; intros k; cbn [email_issues].
  - split; [constructor|reflexivity].
  - split.
    + intros H. apply app_eq_nil in H. destruct H as [Hx Hl].
      constructor; [|apply (IH (S k)); exact Hl].
      destruct (is_email x); [reflexivity|discriminate Hx].
    + intros H. inversion H as [|? ? Hx Hl]; subst.
      rewrite Hx. apply (IH (S k)). exact Hl.
Qed.

Lemma schema_participants_accepts l :
  schema_participants is_email l = Valid l <->
  l <> [] /\ Forall (fun s => is_email s = true) l.
Proof.
  unfold schema_participants. destruct l as [|x l].
  - cbn. split; [discriminate|]. intros [H _]. contradiction H. reflexivity.
  - change (Z.of_nat (List.length (x :: l)) <? 1) with (Z.pos (Pos.of_succ_nat (List.length l)) <? 1).
    replace (Z.pos (Pos.of_succ_nat (List.length l)) <? 1) with false
      by (symmetry; apply Z.ltb_ge; lia).
    cbn [app]. rewrite <- email_issues_nil with (k := 0%nat).
    destruct (email_issues is_email 0 (x :: l)); split.
    + intros _. split; [discriminate|reflexivity].
    + reflexivity.
    + discriminate.
    + intros [_ H]. discriminate H.
Qed.

(** The issues of the whole schema are those of its keys, in order. *)
Lemma issues_of_formSchema d :
  issues_of (formSchema is_email d)
  = issues_of (schema_title (title d))
    ++ issues_of (schema_date (date d))
    ++ issues_of (schema_duration (duration d))
    ++ issues_of (schema_participants is_email (participants d))
    ++ issues_of (schema_timezone (timezone d))
    ++ issues_of (schema_priority (priority d)).
Proof.
  unfold formSchema. rewrite !issues_of_ap. cbn [issues_of schema_description schema_themeColor].
  rewrite !app_nil_r, <- !app_assoc. reflexivity.
Qed.

End SchemaCoverage.

(** Extra X1: the schema accepts a draft exactly when the title has two
    characters or more, the date is a valid date, a duration and a
    timezone are present, there is a participant and every participant
    passes the email test, and the priority is one of the three; nothing
    is asked of the description and the theme color. *)
Theorem X1_schema_accepts_iff (is_email : string -> bool) (d : Draft) :
  (exists v, formSchema is_email d = Valid v) <->
  ((2 <= String.length (title d))%nat
   /\ (exists t, date d = Some (mkDate (Some t)))
   /\ (exists s, duration d = Some s)
   /\ participants d <> []
   /\ Forall (fun p => is_email p = true) (participants d)
   /\ (exists z, timezone d = Some z)
   /\ In (priority d) priorities).
Proof.
  split.
  - intros [v Hv]. unfold formSchema in Hv.
    repeat (apply ap_valid_inv in Hv; destruct Hv as (? & ? & Hv & ? & ?)).
    repeat match goal with
           | H : schema_title _ = Valid _ |- _ =>
               unfold schema_title in H;
               destruct (Z.of_nat (String.length (title d)) <? 2) eqn:Et;
               [discriminate H|]; apply Z.ltb_ge in Et; clear H
           | H : schema_date _ = Valid _ |- _ =>
               unfold schema_date in H;
               destruct (date d) as [[[t|]]|] eqn:Ed; try discriminate H; clear H
           | H : schema_duration _ = Valid _ |- _ =>
               unfold schema_duration in H;
               destruct (duration d) as [s|] eqn:Eu; try discriminate H; clear H
           | H : schema_timezone _ = Valid _ |- _ =>
               unfold schema_timezone in H;
               destruct (timezone d) as [z|] eqn:Ez; try discriminate H; clear H
           | H : schema_priority _ = Valid _ |- _ =>
               unfold schema_priority in H;
               destruct (string_in (priority d) priorities) eqn:Ep;
               [|discriminate H]; apply string_in_In in Ep; clear H
           | H : schema_participants _ _ = Valid ?l |- _ =>
               pose proof (schema_participants_valid is_email _ _ H) as [-> _];
               apply schema_participants_accepts in H; destruct H
           end.
    repeat split; eauto. lia.
  - intros (Ht & [t Hd] & [s Hs] & Hne & Hall & [z Hz] & Hp).
    unfold formSchema, schema_title, schema_date, schema_duration, schema_timezone,
      schema_priority.
    replace (Z.of_nat (String.length (title d)) <? 2) with false
      by (symmetry; apply Z.ltb_ge; lia).
    rewrite Hd, Hs, Hz.
    rewrite (proj2 (schema_participants_accepts is_email (participants d)) (conj Hne Hall)).
    replace (string_in (priority d) priorities) with true.
    + eexists. reflexivity.
    + symmetry. unfold string_in. apply existsb_exists.
      exists (priority d). split; [exact Hp | apply String.eqb_refl].
Qed.

(** Extra X2: the schema reports Invalid email at index [i] of the
    participants exactly when the entry at [i] fails the email test;
    every failing entry is reported, at its own index. *)
Theorem X2_invalid_email_indices (is_email : string -> bool) (d : Draft) (i : nat) :
  In (mkIssue (at_participant i) "Invalid email") (issues_of (formSchema is_email d))
  <-> exists s, nth_error (participants d) i = Some s /\ is_email s = false.
Proof.
  rewrite issues_of_formSchema, issues_of_schema_participants, !in_app_iff.
  rewrite email_issues_In.
  split.
  - intros [H|[H|[H|[[H|H]|[H|H]]]]].
    + unfold schema_title in H. destruct (_ <? _); [|destruct H].
      destruct H as [H|[]]; discriminate H.
    + unfold schema_date in H. destruct (date d) as [[[t|]]|]; cbn in H;
        try destruct H as [H|[]]; try discriminate H; destruct H.
    + unfold schema_duration in H. destruct (duration d); cbn in H;
        try destruct H as [H|[]]; try discriminate H; destruct H.
    + destruct (_ <? _); [|destruct H]. destruct H as [H|[]]; discriminate H.
    + destruct H as (j & s & Heq & Hn & He). inversion Heq; subst. eauto.
    + unfold schema_timezone in H. destruct (timezone d); cbn in H;
        try destruct H as [H|[]]; try discriminate H; destruct H.
    + unfold schema_priority in H. destruct (string_in _ _); cbn in H;
        try destruct H as [H|[]]; try discriminate H; destruct H.
  - intros (s & Hn & He). do 3 right. left. right. exists i, s. auto.
Qed.

(** ** Editing the participants *)

Section Participants.

Variable is_email : string -> bool.

(** An event whose handler only rewrites the draft. *)
Lemma react_setValues w e f :
  handler_of is_email w e = (setValues f ;; ret Returned) ->
  let st := state w in
  let st' := state (react is_email w e) in
  values st' = f (values st)
  /\ suggestedTimes st' = suggestedTimes st
  /\ selectedTime st' = selectedTime st
  /\ loading st' = loading st
  /\ isDarkMode st' = isDarkMode st
  /\ errors st' = errors st
  /\ meetingCost st'
     = (if same_deps (values st) (f (values st)) then meetingCost st
        else cost_of (f (values st)))
  /\ emitted (react is_email w e) = emitted w ++ []
  /\ ((forall o, e <> Settle o) -> pending (react is_email w e) = pending w).
Proof.
  intros Hh. cbn zeta. unfold react. cbn [state emitted pending].
  rewrite run_event_split, Hh. cbn [setValues modify bind ret state_of effects_of
                                     result_of fst snd app].
  rewrite costEffect_run. cbn [state_of fst snd values].
  assert (Hp : (forall o, e <> Settle o) ->
               match e with Settle _ => tl (pending w) | _ => pending w end = pending w).
  { intros Hne. destruct e; try reflexivity. contradiction (Hne o). reflexivity. }
  destruct (same_deps _ _); cbn; repeat split; exact Hp.
Qed.

Lemma filter_index_below l : forall from index,
  (index < from)%nat -> filter_index from l index = l.
Proof.
  induction l as [|x l IH]; intros from index Hlt; cbn [filter_index].
  - reflexivity.
  - replace (Nat.eqb from index) with false by (symmetry; apply Nat.eqb_neq; lia).
    rewrite IH by lia. reflexivity.
Qed.

Lemma filter_index_spec l : forall from i,
  filter_index from l (from + i) = firstn i l ++ skipn (S i) l.
Proof.
  induction l as [|x l IH]; intros from i; cbn [filter_index].
  - destruct i; reflexivity.
  - destruct i as [|i].
    + rewrite Nat.add_0_r, Nat.eqb_refl. cbn. apply filter_index_below. lia.
    + replace (Nat.eqb from (from + S i)) with false
        by (symmetry; apply Nat.eqb_neq; lia).
      replace (from + S i)%nat with (S from + i)%nat by lia.
      rewrite IH. reflexivity.
Qed.

Lemma array_set_length l : forall i v, List.length (array_set l i v) = List.length l.
Proof.
  induction l as [|x l IH]; intros [|i] v; cbn; try reflexivity.
  rewrite IH. reflexivity.
Qed.

Lemma array_set_nth l : forall i v,
  (i < List.length l)%nat -> nth_error (array_set l i v) i = Some v.
Proof.
  induction l as [|x l IH]; intros [|i] v Hlt; cbn in *; try lia.
  - reflexivity.
  - apply IH. lia.
Qed.

Lemma array_set_nth_other l : forall i j v,
  j <> i -> nth_error (array_set l i v) j = nth_error l j.
Proof.
  induction l as [|x l IH]; intros [|i] [|j] v Hne; cbn; try reflexivity.
  - contradiction Hne. reflexivity.
  - apply IH. intros ->. apply Hne. reflexivity.
Qed.

Lemma issue_means_invalid {A} (p : parsed A) i :
  In i (issues_of p) -> exists l, p = Invalid l.
Proof. destruct p as [a|l]; [intros []|]. intros _. exists l. reflexivity. Qed.

Lemma formSchema_invalid_email d i s :
  nth_error (participants d) i = Some s -> is_email s = false ->
  In (mkIssue (at_participant i) "Invalid email") (issues_of (formSchema is_email d)).
Proof.
  intros Hn He.
  rewrite issues_of_formSchema, issues_of_schema_participants, !in_app_iff.
  do 3 right. left. right. apply email_issues_In. exists i, s. auto.
Qed.

End Participants.

(** Extra X3: Remove on the row [index] drops the entry at [index] and
    keeps the others in order (a row that does not exist drops nothing);
    the rest of the draft and of the state is untouched and nothing is
    emitted. *)
Theorem X3_remove_participant (is_email : string -> bool) (w : World) (index : nat) :
  let d := values (state w) in
  let w' := react is_email w (RemoveParticipant index) in
  let d' := values (state w') in
  participants d' = firstn index (participants d) ++ skipn (S index) (participants d)
  /\ List.length (participants d')
     = (if (index <? List.length (participants d))%nat
        then List.length (participants d) - 1
        else List.length (participants d))%nat
  /\ d' = with_participants (participants d') d
  /\ selectedTime (state w') = selectedTime (state w)
  /\ suggestedTimes (state w') = suggestedTimes (state w)
  /\ loading (state w') = loading (state w)
  /\ emitted w' = emitted w.
Proof.
  cbn zeta.
  destruct (react_setValues is_email w (RemoveParticipant index)
              (fun d => with_participants (filter_index 0 (participants d) index) d)
              eq_refl) as (Hv & Hs & Hsel & Hl & _ & _ & _ & Hem & _).
  cbn zeta in *. rewrite Hv, Hs, Hsel, Hl, Hem, app_nil_r.
  cbn [participants with_participants].
  pose proof (filter_index_spec (participants (values (state w))) 0 index) as Hf.
  cbn [Nat.add] in Hf. rewrite Hf.
  repeat split.
  rewrite length_app, length_firstn, length_skipn.
  destruct (index <? List.length (participants (values (state w))))%nat eqn:E.
  - apply Nat.ltb_lt in E. lia.
  - apply Nat.ltb_ge in E. lia.
Qed.

(** Extra X4: typing [s] in the row [index] of the participants stores
    [s] at [index] and leaves every other entry, the number of entries
    and the rest of the draft as they were. *)
Theorem X4_change_participant
  (is_email : string -> bool) (w : World) (index : nat) (s : string) :
  enabled w (ChangeParticipant index s) = true ->
  let d := values (state w) in
  let d' := values (state (react is_email w (ChangeParticipant index s))) in
  nth_error (participants d') index = Some s
  /\ (forall j, j <> index -> nth_error (participants d') j = nth_error (participants d) j)
  /\ List.length (participants d') = List.length (participants d)
  /\ d' = with_participants (participants d') d.
Proof.
  intros Hen. cbn in Hen. apply Nat.ltb_lt in Hen. cbn zeta.
  destruct (react_setValues is_email w (ChangeParticipant index s)
              (fun d => with_participants (array_set (participants d) index s) d)
              eq_refl) as (Hv & _).
  cbn zeta in Hv. rewrite Hv. cbn [participants with_participants].
  repeat split.
  - apply array_set_nth. exact Hen.
  - intros j Hj. apply array_set_nth_other. exact Hj.
  - apply array_set_length.
Qed.

Lemma X4_witness :
  enabled sampleWorld (ChangeParticipant 1 "e@f.io") = true
  /\ nth_error (participants (values (state
        (react zod_email sampleWorld (ChangeParticipant 1 "e@f.io"))))) 1
     = Some "e@f.io".
Proof.
  assert (H : enabled sampleWorld (ChangeParticipant 1 "e@f.io") = true) by reflexivity.
  split; [exact H|].
  apply (X4_change_participant zod_email sampleWorld 1 "e@f.io" H).
Defined.

(** Extra X5: Add Participant followed by Remove on the new last row
    gives back the draft, the stored cost, the suggestions, the
    selection, the loading flag and the theme, with no request touched
    and nothing emitted on the way. *)
Theorem X5_add_then_remove (is_email : string -> bool) (w : World) :
  reachable is_email w ->
  let n := List.length (participants (values (state w))) in
  let w1 := react is_email w AddParticipant in
  let w2 := react is_email w1 (RemoveParticipant n) in
  participants (values (state w1)) = participants (values (state w)) ++ [ EmptyString ]
  /\ enabled w1 (RemoveParticipant n) = true
  /\ values (state w2) = values (state w)
  /\ meetingCost (state w2) = meetingCost (state w)
  /\ suggestedTimes (state w2) = suggestedTimes (state w)
  /\ selectedTime (state w2) = selectedTime (state w)
  /\ loading (state w2) = loading (state w)
  /\ isDarkMode (state w2) = isDarkMode (state w)
  /\ pending w2 = pending w
  /\ emitted w2 = emitted w.
Proof.
  intros Hw. cbn zeta.
  set (w1 := react is_email w AddParticipant).
  assert (Hw1 : reachable is_email w1) by (apply reachable_react; [exact Hw|reflexivity]).
  destruct (react_setValues is_email w AddParticipant
              (fun d => with_participants (participants d ++ [ EmptyString ]) d)
              eq_refl) as (Hv1 & Hs1 & Hsel1 & Hl1 & Hd1 & _ & _ & Hem1 & Hp1).
  fold w1 in Hv1, Hs1, Hsel1, Hl1, Hd1, Hem1, Hp1. cbn zeta in *.
  assert (Hen : enabled w1 (RemoveParticipant
                              (List.length (participants (values (state w))))) = true).
  { cbn [enabled]. rewrite Hv1. cbn [participants with_participants].
    apply Nat.ltb_lt. rewrite length_app. cbn. lia. }
  set (w2 := react is_email w1 (RemoveParticipant _)).
  assert (Hw2 : reachable is_email w2) by (apply reachable_react; assumption).
  destruct (react_setValues is_email w1
              (RemoveParticipant (List.length (participants (values (state w)))))
              (fun d => with_participants
                          (filter_index 0 (participants d)
                             (List.length (participants (values (state w))))) d)
              eq_refl) as (Hv2 & Hs2 & Hsel2 & Hl2 & Hd2 & _ & _ & Hem2 & Hp2).
  fold w2 in Hv2, Hs2, Hsel2, Hl2, Hd2, Hem2, Hp2. cbn zeta in *.
  assert (Hvalues : values (state w2) = values (state w)).
  { rewrite Hv2, Hv1. cbn [participants with_participants title description date
                             duration timezone priority themeColor].
    pose proof (filter_index_spec (participants (values (state w)) ++ [ EmptyString ]) 0
                  (List.length (participants (values (state w))))) as Hf.
    cbn [Nat.add] in Hf. rewrite Hf.
    rewrite firstn_app, Nat.sub_diag, firstn_all, skipn_all2
      by (rewrite length_app; cbn; lia).
    cbn [firstn]. rewrite !app_nil_r.
    destruct (values (state w)); reflexivity. }
  split; [rewrite Hv1; reflexivity|].
  split; [exact Hen|].
  split; [exact Hvalues|].
  split.
  { rewrite (reachable_cost is_email w2 Hw2), (reachable_cost is_email w Hw), Hvalues.
    reflexivity. }
  repeat split; try congruence.
  - rewrite Hp2, Hp1 by discriminate. reflexivity.
  - rewrite Hem2, Hem1, !app_nil_r. reflexivity.
Qed.

Lemma X5_witness :
  reachable zod_email sampleWorld
  /\ values (state (react zod_email (react zod_email sampleWorld AddParticipant)
                      (RemoveParticipant
                         (List.length (participants (values (state sampleWorld)))))))
     = values (state sampleWorld).
Proof.
  assert (Hr : reachable zod_email sampleWorld).
  { apply reachable_run_events; [apply reachable_mounted | vm_compute; reflexivity]. }
  split; [exact Hr|].
  destruct (X5_add_then_remove zod_email sampleWorld Hr) as (_ & _ & Hv & _).
  exact Hv.
Defined.

(** Extra X6: the entry Add Participant appends is empty, so (an email
    test accepting no empty string) the draft is refused until that row
    is filled or removed: the schema reports Invalid email at the new
    index and a submit makes no request. *)
Theorem X6_added_row_blocks_submit (is_email : string -> bool) (w : World) :
  is_email EmptyString = false ->
  let n := List.length (participants (values (state w))) in
  let w1 := react is_email w AddParticipant in
  In (mkIssue (at_participant n) "Invalid email")
     (issues_of (formSchema is_email (values (state w1))))
  /\ effects_of (run_event is_email w1 Submit) = []
  /\ result_of (run_event is_email w1 Submit) = Returned.
Proof.
  intros Hempty. cbn zeta.
  destruct (react_setValues is_email w AddParticipant
              (fun d => with_participants (participants d ++ [ EmptyString ]) d)
              eq_refl) as (Hv1 & _).
  cbn zeta in Hv1.
  assert (Hin : In (mkIssue (at_participant (List.length (participants (values (state w)))))
                      "Invalid email")
                   (issues_of (formSchema is_email
                                 (values (state (react is_email w AddParticipant)))))).
  { apply (formSchema_invalid_email is_email _ _ EmptyString); [|exact Hempty].
    rewrite Hv1. cbn [participants with_participants].
    rewrite nth_error_app2 by lia. rewrite Nat.sub_diag. reflexivity. }
  split; [exact Hin|].
  destruct (issue_means_invalid _ _ Hin) as [l Hl].
  rewrite run_event_split. cbn [handler_of].
  rewrite (handleSubmit_invalid is_email _ l Hl). split; reflexivity.
Qed.

Lemma X6_witness :
  zod_email EmptyString = false
  /\ effects_of (run_event zod_email (react zod_email sampleWorld AddParticipant) Submit) = [].
Proof.
  assert (H : zod_email EmptyString = false) by reflexivity.
  split; [exact H|].
  apply (X6_added_row_blocks_submit zod_email sampleWorld H).
Defined.

(** ** Invariants of the mounted component *)

Section Invariants.

Variable is_email : string -> bool.

Ltac on_submit st :=
  let v := fresh "v" in
  let issues := fresh "issues" in
  let Hv := fresh "Hv" in
  destruct (formSchema is_email (values st)) as [v|issues] eqn:Hv;
  [ rewrite (handleSubmit_valid is_email st v Hv); cbn zeta
  | rewrite (handleSubmit_invalid is_email st issues Hv) ].

Lemma react_values w e :
  values (state (react is_email w e))
  = values (state_of (handler_of is_email w e (state w))).
Proof.
  rewrite react_state.
  destruct (costEffect_frame (values (state w))
              (state_of (handler_of is_email w e (state w)))) as (-> & _).
  reflexivity.
Qed.

Lemma react_loading w e :
  loading (state (react is_email w e))
  = loading (state_of (handler_of is_email w e (state w))).
Proof.
  rewrite react_state.
  destruct (costEffect_frame (values (state w))
              (state_of (handler_of is_email w e (state w)))) as (_ & _ & _ & ->).
  reflexivity.
Qed.


Lemma react_suggestedTimes w e :
  suggestedTimes (state (react is_email w e))
  = suggestedTimes (state_of (handler_of is_email w e (state w))).
Proof.
  rewrite react_state.
  destruct (costEffect_frame (values (state w))
              (state_of (handler_of is_email w e (state w)))) as (_ & _ & -> & _).
  reflexivity.
Qed.

Lemma react_pending_eq w e :
  pending (react is_email w e)
  = match result_of (handler_of is_email w e (state w)) with
    | Returned => match e with Settle _ => tl (pending w) | _ => pending w end
    | Awaiting resume =>
        match e with Settle _ => tl (pending w) | _ => pending w end ++ [ resume ]
    end.
Proof. unfold react. cbn [pending]. rewrite run_event_split. reflexivity. Qed.

Lemma react_emitted w e :
  emitted (react is_email w e)
  = emitted w ++ effects_of (handler_of is_email w e (state w)).
Proof. unfold react. cbn [emitted]. rewrite run_event_split. reflexivity. Qed.

(** The submit waits for one request at most, and [loading] says so. *)
Lemma reachable_at_most_one_pending w :
  reachable is_email w -> at_most_one_pending w.
Proof.
  induction 1 as [|w e Hw IH He].
  - left. split; reflexivity.
  - unfold at_most_one_pending in *.
    rewrite react_loading, react_pending_eq.
    destruct e; cbn [handler_of]; try exact IH.
    + (* Submit *)
      cbn in He. apply negb_true_iff in He.
      destruct IH as [[_ Hp]|[Hl _]]; [|congruence]. rewrite Hp.
      on_submit (state w).
      * destruct (String.eqb (selectedTime (state w)) EmptyString); cbn.
        -- right. split; reflexivity.
        -- left. split; [exact He|reflexivity].
      * left. split; [exact He|reflexivity].
    + (* Settle *)
      cbn in He.
      destruct IH as [[_ Hp]|[_ Hp]]; rewrite Hp in *; [discriminate He|].
      left. destruct o; split; reflexivity.
Qed.

Lemma In_string_in s l : In s l -> string_in s l = true.
Proof.
  intros H. unfold string_in. apply existsb_exists.
  exists s. split; [exact H | apply String.eqb_refl].
Qed.

Lemma template_in t :
  existsb (template_eqb t) meetingTemplates = true -> In t meetingTemplates.
Proof.
  intros H. apply existsb_exists in H. destruct H as (t' & Hin & Heq).
  unfold template_eqb in Heq.
  repeat (apply andb_prop in Heq; destruct Heq as [Heq ?]).
  repeat match goal with H : String.eqb _ _ = true |- _ => apply String.eqb_eq in H end.
  destruct t, t'; cbn in *; subst. exact Hin.
Qed.

Lemma calendar_enabled_after_1900 now t :
  calendar_disabled now (mkDate (Some t)) = false -> MakeDay 1900 1 1 * msPerDay <= t.
Proof.
  unfold calendar_disabled. intros H. apply orb_false_elim in H. destruct H as [_ H].
  unfold date_lt, date_1900_01_01, Date_of_iso_day in H. cbn [time_value] in H.
  apply Z.ltb_ge in H. exact H.
Qed.

(** Every draft the component reaches was stored by the controls. *)
Lemma reachable_from_controls w :
  reachable is_email w -> from_controls (values (state w)).
Proof.
  induction 1 as [|w e Hw IH He].
  - unfold from_controls. cbn. repeat split; try discriminate; auto 6.
  - rewrite react_values.
    pose proof (reachable_pending is_email w Hw) as Hpend.
    destruct IH as (Htz & Hpr & Hth & Hde & Hda).
    unfold from_controls.
    destruct e; cbn [handler_of];
      try (cbn [setValues modify bind ret get state_of fst snd values setSelectedTime
                  setIsDarkMode with_title with_participants with_duration
                  with_description with_priority with_themeColor with_date applyTemplate
                  timezone priority themeColor description date];
           repeat split; solve [assumption | discriminate]).
    + (* ChangePriority *)
      cbn [setValues modify bind ret state_of fst snd values with_priority
             timezone priority themeColor description date].
      repeat split; try assumption. apply string_in_In. exact He.
    + (* SelectDate *)
      cbn [setValues modify bind ret state_of fst snd values with_date
             timezone priority themeColor description date].
      repeat split; try assumption.
      destruct d as [[[t|]]|]; [| |exact I].
      * cbn in He. apply andb_prop in He. destruct He as [He _].
        apply negb_true_iff in He. exists t. split; [reflexivity|].
        apply (calendar_enabled_after_1900 now). exact He.
      * cbn in He. discriminate He.
    + (* ChangeThemeColor *)
      cbn [setValues modify bind ret state_of fst snd values with_themeColor
             timezone priority themeColor description date].
      repeat split; try assumption. apply string_in_In. exact He.
    + (* ClickTemplate *)
      cbn [enabled] in He. apply template_in in He.
      cbn [setValues modify bind ret state_of fst snd values applyTemplate
             with_duration with_description with_priority
             timezone priority themeColor description date].
      repeat split; try assumption; try discriminate.
      destruct He as [<-|[<-|[<-|[]]]]; cbn; auto.
    + (* Submit *)
      on_submit (state w).
      * destruct (String.eqb (selectedTime (state w)) EmptyString);
          repeat split; assumption.
      * repeat split; assumption.
    + (* Settle *)
      destruct Hpend as [|k l Hk Hl]; [repeat split; assumption|].
      subst k. destruct o; repeat split; assumption.
Qed.

(** Every request made so far went to the one endpoint, as a POST, with
    the timezone UTC. *)
Lemma reachable_requests w :
  reachable is_email w -> Forall well_formed_request (emitted w).
Proof.
  induction 1 as [|w e Hw IH He].
  - constructor.
  - rewrite react_emitted. apply Forall_app. split; [exact IH|].
    pose proof (reachable_pending is_email w Hw) as Hpend.
    pose proof (reachable_from_controls w Hw) as (Htz & _).
    destruct e; cbn [handler_of]; try (cbn; constructor).
    + (* Submit *)
      on_submit (state w).
      * pose proof (formSchema_valid is_email _ _ Hv) as (_ & _ & _ & _ & _ & Hz & _).
        rewrite Htz in Hz. inversion Hz as [Hz'].
        destruct (String.eqb (selectedTime (state w)) EmptyString); cbn.
        -- constructor; [|constructor]. cbn. repeat split. exact Hz'.
        -- repeat constructor.
      * constructor.
    + (* Settle *)
      destruct Hpend as [|k l Hk Hl]; [constructor|].
      subst k. destruct o; cbn; repeat constructor.
Qed.

Lemma same_deps_of_eq a b :
  participants a = participants b -> duration a = duration b -> same_deps a b = true.
Proof.
  intros Hp Hd. unfold same_deps. rewrite Hp, Hd.
  destruct (list_eq_dec string_dec (participants b) (participants b)) as [_|Hn];
    [|contradiction Hn; reflexivity].
  destruct (duration b); [apply String.eqb_refl|reflexivity].
Qed.

End Invariants.

Section IssuesOfReachable.

Variable is_email : string -> bool.

Lemma from_controls_issues d i :
  from_controls d ->
  In i (issues_of (formSchema is_email d)) -> expected_issue i.
Proof.
  intros (Htz & Hpr & _ & _ & Hda).
  rewrite issues_of_formSchema, issues_of_schema_participants, !in_app_iff.
  unfold schema_title, schema_date, schema_duration, schema_timezone, schema_priority.
  rewrite Htz, (In_string_in _ _ Hpr). unfold expected_issue.
  intros [H|[H|[H|[[H|H]|[H|H]]]]].
  - destruct (_ <? _); cbn in H; [|destruct H]. destruct H as [<-|[]]. auto.
  - destruct (date d) as [[[t|]]|]; cbn in H.
    + destruct H.
    + destruct Hda as (t & Heq & _). discriminate Heq.
    + destruct H as [<-|[]]. auto.
  - destruct (duration d); cbn in H; [destruct H|]. destruct H as [<-|[]]. auto.
  - destruct (_ <? _); cbn in H; [|destruct H]. destruct H as [<-|[]]. auto.
  - apply email_issues_In in H. destruct H as (j & s & -> & _). do 4 right. eauto.
  - destruct H.
  - destruct H.
Qed.

End IssuesOfReachable.

(** Extra X7: at every moment the mounted component waits for at most
    one suggestion request, and the submit button is disabled, showing
    the spinner, exactly while one is pending. *)
Theorem X7_one_request_at_a_time (is_email : string -> bool) (w : World) :
  reachable is_email w ->
  (List.length (pending w) <= 1)%nat
  /\ (disabled (submitButton (state w)) = true <-> pending w <> [])
  /\ (content (submitButton (state w)) = Spinner <-> pending w <> []).
Proof.
  intros Hw. destruct (reachable_at_most_one_pending is_email w Hw) as [[Hl Hp]|[Hl Hp]];
    unfold submitButton; cbn [disabled content]; rewrite Hl, Hp;
    cbn [List.length].
  - split; [lia|]. split; split.
    + discriminate.
    + intros H. contradiction H. reflexivity.
    + destruct (0 <? List.length (suggestedTimes (state w)))%nat; discriminate.
    + intros H. contradiction H. reflexivity.
  - split; [lia|]. split; split;
      try discriminate; reflexivity.
Qed.

Lemma X7_witness :
  reachable zod_email (react zod_email sampleWorld Submit)
  /\ disabled (submitButton (state (react zod_email sampleWorld Submit))) = true.
Proof.
  assert (Hr : reachable zod_email (react zod_email sampleWorld Submit)).
  { apply reachable_react; [|reflexivity].
    apply reachable_run_events; [apply reachable_mounted | reflexivity]. }
  split; [exact Hr|].
  destruct (X7_one_request_at_a_time zod_email _ Hr) as (_ & Hd & _).
  apply Hd. vm_compute. discriminate.
Defined.

(** Extra X8: no control writes the timezone (the table of timezones is
    never rendered), so the draft's timezone is UTC in every state the
    component reaches, every request it has made went to
    /api/suggest-times as a POST with the timezone UTC, and the schema
    never asks for a timezone. *)
Theorem X8_timezone_is_always_UTC (is_email : string -> bool) (w : World) :
  reachable is_email w ->
  timezone (values (state w)) = Some "UTC"
  /\ (forall url method body,
        In (Fetch url method body) (emitted w) ->
        url = "/api/suggest-times" /\ method = "POST" /\ body_timezone body = "UTC")
  /\ ~ In (mkIssue at_timezone "Please select a timezone")
          (issues_of (formSchema is_email (values (state w)))).
Proof.
  intros Hw.
  pose proof (reachable_from_controls is_email w Hw) as Hc.
  split; [apply Hc|]. split.
  - intros url method body Hin.
    pose proof (reachable_requests is_email w Hw) as Hall.
    rewrite Forall_forall in Hall. exact (Hall _ Hin).
  - intros Hin. apply (from_controls_issues is_email _ _ Hc) in Hin.
    destruct Hin as [H|[H|[H|[H|[k H]]]]]; discriminate H.
Qed.

Lemma X8_witness :
  reachable zod_email (react zod_email sampleWorld Submit)
  /\ emitted (react zod_email sampleWorld Submit)
     = [ Fetch "/api/suggest-times" "POST"
           (mkBody [ "a@b.com"; "c@d.org" ] "15" "UTC") ]
  /\ timezone (values (state (react zod_email sampleWorld Submit))) = Some "UTC".
Proof.
  assert (Hr : reachable zod_email (react zod_email sampleWorld Submit)).
  { apply reachable_react; [|reflexivity].
    apply reachable_run_events; [apply reachable_mounted | reflexivity]. }
  split; [exact Hr|]. split; [reflexivity|].
  apply (X8_timezone_is_always_UTC zod_email _ Hr).
Defined.

(** Extra X9: whatever the user does, the schema has only five things to
    say about the draft: the title is too short, the date or the duration
    is missing, there is no participant, or an entry is not an email.
    The messages for an invalid date, a missing timezone and a wrong
    priority are never among its issues. *)
Theorem X9_only_five_messages (is_email : string -> bool) (w : World) (i : issue) :
  reachable is_email w ->
  In i (issues_of (formSchema is_email (values (state w)))) ->
  expected_issue i.
Proof.
  intros Hw. apply from_controls_issues.
  apply (reachable_from_controls is_email). exact Hw.
Qed.

Lemma X9_witness :
  reachable zod_email mounted
  /\ expected_issue (mkIssue (at_participant 0) "Invalid email").
Proof.
  assert (Hr : reachable zod_email mounted) by apply reachable_mounted.
  split; [exact Hr|].
  apply (X9_only_five_messages zod_email mounted _ Hr).
  vm_compute. do 3 right. left. reflexivity.
Defined.

(** Extra X10: the request carries the participants, the duration and the
    timezone and nothing else: two accepted drafts that agree on these
    three make the same request, whatever their title, description, date,
    priority and theme color. *)
Theorem X10_request_ignores_other_fields
  (is_email : string -> bool) (st1 st2 : State) (v1 v2 : Values.t) :
  formSchema is_email (values st1) = Valid v1 ->
  formSchema is_email (values st2) = Valid v2 ->
  selectedTime st1 = EmptyString -> selectedTime st2 = EmptyString ->
  participants (values st1) = participants (values st2) ->
  duration (values st1) = duration (values st2) ->
  timezone (values st1) = timezone (values st2) ->
  effects_of (handleSubmit is_email onSubmit st1)
  = effects_of (handleSubmit is_email onSubmit st2).
Proof.
  intros H1 H2 Hs1 Hs2 Hp Hd Hz.
  rewrite (handleSubmit_valid is_email st1 v1 H1), (handleSubmit_valid is_email st2 v2 H2).
  cbn zeta. rewrite Hs1, Hs2. cbn.
  destruct (formSchema_valid is_email _ _ H1) as (_ & _ & _ & Hd1 & Hp1 & Hz1 & _).
  destruct (formSchema_valid is_email _ _ H2) as (_ & _ & _ & Hd2 & Hp2 & Hz2 & _).
  assert (Values.duration v1 = Values.duration v2) by congruence.
  assert (Values.timezone v1 = Values.timezone v2) by congruence.
  assert (Values.participants v1 = Values.participants v2) by congruence.
  congruence.
Qed.

Lemma X10_witness :
  effects_of (handleSubmit zod_email onSubmit (sampleState EmptyString))
  = effects_of (handleSubmit zod_email onSubmit
                  (mkState [] EmptyString false true (Number_of_Z 0)
                     (with_title "Retro"
                        (with_date (Some (mkDate (Some 1900000000000)))
                           (with_priority "high" sampleDraft))) [])).
Proof.
  eapply (X10_request_ignores_other_fields zod_email);
    try reflexivity.
Defined.

(** ** The two-phase flow, step by step *)

Section Flow.

Variable is_email : string -> bool.

Lemma react_submit_request w v :
  formSchema is_email (values (state w)) = Valid v ->
  selectedTime (state w) = EmptyString ->
  react is_email w Submit
  = mkWorld (state_of (setLoading true (state_of (setErrors [] (state w)))))
            (pending w ++ [ getSuggestedTimes_resume ])
            (emitted w
             ++ [ Fetch "/api/suggest-times" "POST"
                    (mkBody (Values.participants v) (Values.duration v)
                            (Values.timezone v)) ]).
Proof.
  intros Hv Hsel. unfold react. rewrite run_event_split. cbn [handler_of].
  rewrite (handleSubmit_valid is_email _ v Hv). cbn zeta. rewrite Hsel.
  cbn [String.eqb result_of effects_of state_of fst snd].
  rewrite costEffect_run. cbn [state_of fst snd setLoading setErrors modify values].
  rewrite same_deps_refl. reflexivity.
Qed.

Lemma react_submit_final w v :
  formSchema is_email (values (state w)) = Valid v ->
  selectedTime (state w) <> EmptyString ->
  react is_email w Submit
  = mkWorld (state_of (setErrors [] (state w)))
            (pending w)
            (emitted w
             ++ [ Confetti 100 70; ConsoleLog (mkScheduled v (selectedTime (state w))) ]).
Proof.
  intros Hv Hsel. apply String.eqb_neq in Hsel.
  unfold react. rewrite run_event_split. cbn [handler_of].
  rewrite (handleSubmit_valid is_email _ v Hv). cbn zeta. rewrite Hsel.
  cbn [result_of effects_of state_of fst snd].
  rewrite costEffect_run. cbn [state_of fst snd setErrors modify values].
  rewrite same_deps_refl. reflexivity.
Qed.

Lemma react_settle w o rest :
  pending w = getSuggestedTimes_resume :: rest ->
  react is_email w (Settle o)
  = mkWorld (state_of (getSuggestedTimes_resume o (state w)))
            rest
            (emitted w ++ effects_of (getSuggestedTimes_resume o (state w))).
Proof.
  intros Hp. unfold react. rewrite run_event_split. cbn [handler_of]. rewrite Hp.
  cbn [tl]. rewrite costEffect_run.
  destruct o; cbn; rewrite same_deps_refl; reflexivity.
Qed.

Lemma react_click w t :
  react is_email w (ClickSuggestedTime t)
  = mkWorld (state_of (setSelectedTime t (state w))) (pending w) (emitted w ++ []).
Proof.
  unfold react. rewrite run_event_split. cbn [handler_of].
  rewrite costEffect_run. cbn. rewrite same_deps_refl. reflexivity.
Qed.

End Flow.

(** Extra X11: from an idle state with an accepted draft and nothing
    selected, the flow submit, answer [times], click [t], submit again
    makes one request and then logs the record of the draft with the time
    [t]; the draft is the same at the end, [times] are shown, and nothing
    is pending. *)
Theorem X11_request_pick_confirm
  (is_email : string -> bool) (w : World) (v : Values.t)
  (times : list string) (t : string) :
  reachable is_email w ->
  formSchema is_email (values (state w)) = Valid v ->
  selectedTime (state w) = EmptyString ->
  loading (state w) = false ->
  In t times -> t <> EmptyString ->
  let es := [ Submit; Settle (Json times); ClickSuggestedTime t; Submit ] in
  let w' := run_events is_email w es in
  all_enabled is_email w es = true
  /\ emitted w'
     = emitted w
       ++ [ Fetch "/api/suggest-times" "POST"
              (mkBody (participants (values (state w))) (Values.duration v)
                      (Values.timezone v));
            Confetti 100 70;
            ConsoleLog (mkScheduled v t) ]
  /\ values (state w') = values (state w)
  /\ suggestedTimes (state w') = times
  /\ selectedTime (state w') = t
  /\ loading (state w') = false
  /\ pending w' = [].
Proof.
  intros Hw Hv Hsel Hload Hin Hne.
  assert (Hp : pending w = []).
  { destruct (reachable_at_most_one_pending is_email w Hw) as [[_ H]|[H _]];
      [exact H|congruence]. }
  destruct (formSchema_valid is_email _ _ Hv) as (_ & _ & _ & _ & Hpv & _).
  cbn zeta. cbn [run_events fold_left all_enabled].
  pose proof (react_submit_request is_email w v Hv Hsel) as E1.
  rewrite Hp in E1. cbn [app] in E1. rewrite E1.
  rewrite (react_settle is_email _ (Json times) []) by reflexivity.
  rewrite react_click.
  rewrite (react_submit_final is_email _ v) by (cbn; assumption).
  cbn [state pending emitted enabled state_of effects_of fst snd
         getSuggestedTimes_resume setSuggestedTimes setSelectedTime setLoading setErrors
         modify bind perform ret app
         values suggestedTimes selectedTime loading].
  rewrite Hload, (In_string_in _ _ Hin), Hpv, <- !app_assoc. cbn.
  repeat split.
Qed.

Lemma X11_witness :
  reachable zod_email sampleWorld
  /\ selectedTime (state (run_events zod_email sampleWorld
        [ Submit; Settle (Json [ "10:00 AM"; "2:00 PM" ]);
          ClickSuggestedTime "2:00 PM"; Submit ])) = "2:00 PM".
Proof.
  assert (Hr : reachable zod_email sampleWorld).
  { apply reachable_run_events; [apply reachable_mounted | reflexivity]. }
  assert (Hv : formSchema zod_email (values (state sampleWorld))
               = Valid (Values.mk "Standup" (Some "Brief alignment meeting")
                          (mkDate (Some 1800000000000)) "15"
                          [ "a@b.com"; "c@d.org" ] "UTC" "low" "blue"))
    by (vm_compute; reflexivity).
  assert (Hsel : selectedTime (state sampleWorld) = EmptyString)
    by (vm_compute; reflexivity).
  assert (Hload : loading (state sampleWorld) = false) by (vm_compute; reflexivity).
  assert (Hin : In "2:00 PM" [ "10:00 AM"; "2:00 PM" ]) by (right; left; reflexivity).
  assert (Hne : "2:00 PM" <> EmptyString) by discriminate.
  split; [exact Hr|].
  destruct (X11_request_pick_confirm zod_email sampleWorld _ _ _ Hr Hv Hsel Hload Hin Hne)
    as (_ & _ & _ & _ & Ht & _).
  exact Ht.
Defined.

(** Extra X12: a request that fails leaves the component where it was
    before the submit, with the form errors emptied: the same
    suggestions, selection and draft, the button enabled with the same
    label; only the request and the console error went out, and a new
    submit makes the same request again. *)
Theorem X12_failed_request_can_be_retried
  (is_email : string -> bool) (w : World) (v : Values.t) (o : fetch_outcome) :
  reachable is_email w ->
  formSchema is_email (values (state w)) = Valid v ->
  selectedTime (state w) = EmptyString ->
  loading (state w) = false ->
  (o = FetchRejected \/ o = JsonRejected) ->
  let request :=
    Fetch "/api/suggest-times" "POST"
      (mkBody (Values.participants v) (Values.duration v) (Values.timezone v)) in
  let w' := run_events is_email w [ Submit; Settle o ] in
  all_enabled is_email w [ Submit; Settle o ] = true
  /\ state w' = state_of (setErrors [] (state w))
  /\ pending w' = []
  /\ emitted w' = emitted w ++ [ request; ConsoleError "Error getting suggested times:" ]
  /\ submitButton (state w') = submitButton (state w)
  /\ enabled w' Submit = true
  /\ effects_of (run_event is_email w' Submit) = [ request ].
Proof.
  intros Hw Hv Hsel Hload Ho.
  assert (Hp : pending w = []).
  { destruct (reachable_at_most_one_pending is_email w Hw) as [[_ H]|[H _]];
      [exact H|congruence]. }
  cbn zeta. cbn [run_events fold_left all_enabled].
  pose proof (react_submit_request is_email w v Hv Hsel) as E1.
  rewrite Hp in E1. cbn [app] in E1. rewrite E1.
  rewrite (react_settle is_email _ o []) by reflexivity.
  assert (Hst : state_of (getSuggestedTimes_resume o
                  (state_of (setLoading true (state_of (setErrors [] (state w))))))
                = state_of (setErrors [] (state w))).
  { destruct Ho; subst o; cbn; rewrite <- Hload; reflexivity. }
  assert (Hout : effects_of (getSuggestedTimes_resume o
                   (state_of (setLoading true (state_of (setErrors [] (state w))))))
                 = [ ConsoleError "Error getting suggested times:" ]).
  { destruct Ho; subst o; reflexivity. }
  cbn [state pending emitted enabled]. rewrite Hst, Hout.
  cbn [state_of setErrors modify fst snd loading suggestedTimes submitButton].
  rewrite Hload, <- app_assoc. cbn [negb andb app].
  repeat split.
  - unfold submitButton. cbn [loading suggestedTimes]. rewrite Hload. reflexivity.
  - rewrite run_event_split. cbn [handler_of state effects_of snd].
    rewrite (handleSubmit_valid is_email _ v) by exact Hv.
    cbn. rewrite Hsel. reflexivity.
Qed.

Lemma X12_witness :
  reachable zod_email sampleWorld
  /\ pending (run_events zod_email sampleWorld [ Submit; Settle FetchRejected ]) = []
  /\ enabled (run_events zod_email sampleWorld [ Submit; Settle FetchRejected ]) Submit
     = true.
Proof.
  assert (Hr : reachable zod_email sampleWorld).
  { apply reachable_run_events; [apply reachable_mounted | reflexivity]. }
  assert (Hv : formSchema zod_email (values (state sampleWorld))
               = Valid (Values.mk "Standup" (Some "Brief alignment meeting")
                          (mkDate (Some 1800000000000)) "15"
                          [ "a@b.com"; "c@d.org" ] "UTC" "low" "blue"))
    by (vm_compute; reflexivity).
  assert (Hsel : selectedTime (state sampleWorld) = EmptyString)
    by (vm_compute; reflexivity).
  assert (Hload : loading (state sampleWorld) = false) by (vm_compute; reflexivity).
  split; [exact Hr|].
  destruct (X12_failed_request_can_be_retried zod_email sampleWorld _ FetchRejected
              Hr Hv Hsel Hload (or_introl eq_refl))
    as (_ & _ & Hp & _ & _ & Hen & _).
  split; [exact Hp | exact Hen].
Defined.

(** Extra X13: the selection can outlive the suggestions it came from.
    While a second request is pending the badges of the first answer are
    still clickable; whatever the second answer [times2] is, the clicked
    label [t] stays selected, and the next submit logs a meeting at [t],
    listed or not. *)
Theorem X13_selection_outlives_suggestions
  (is_email : string -> bool) (w : World) (v : Values.t)
  (times1 times2 : list string) (t : string) :
  reachable is_email w ->
  formSchema is_email (values (state w)) = Valid v ->
  selectedTime (state w) = EmptyString ->
  loading (state w) = false ->
  In t times1 -> t <> EmptyString ->
  let es := [ Submit; Settle (Json times1); Submit; ClickSuggestedTime t;
              Settle (Json times2) ] in
  let w' := run_events is_email w es in
  reachable is_email w'
  /\ suggestedTimes (state w') = times2
  /\ selectedTime (state w') = t
  /\ effects_of (run_event is_email w' Submit)
     = [ Confetti 100 70; ConsoleLog (mkScheduled v t) ].
Proof.
  intros Hw Hv Hsel Hload Hin Hne.
  assert (Hp : pending w = []).
  { destruct (reachable_at_most_one_pending is_email w Hw) as [[_ H]|[H _]];
      [exact H|congruence]. }
  cbn zeta.
  assert (Hen : all_enabled is_email w
                  [ Submit; Settle (Json times1); Submit; ClickSuggestedTime t;
                    Settle (Json times2) ] = true).
  { cbn [all_enabled].
    pose proof (react_submit_request is_email w v Hv Hsel) as E1.
    rewrite Hp in E1. cbn [app] in E1. rewrite E1.
    rewrite (react_settle is_email _ (Json times1) []) by reflexivity.
    rewrite (react_submit_request is_email _ v) by (cbn; assumption).
    rewrite react_click.
    cbn [state pending emitted enabled state_of effects_of fst snd
           getSuggestedTimes_resume setSuggestedTimes setSelectedTime setLoading
           setErrors modify bind perform ret app
           values suggestedTimes selectedTime loading].
    rewrite Hload, (In_string_in _ _ Hin). reflexivity. }
  split; [apply reachable_run_events; assumption|].
  cbn [run_events fold_left].
  pose proof (react_submit_request is_email w v Hv Hsel) as E1.
  rewrite Hp in E1. cbn [app] in E1. rewrite E1.
  rewrite (react_settle is_email _ (Json times1) []) by reflexivity.
  rewrite (react_submit_request is_email _ v) by (cbn; assumption).
  rewrite react_click.
  rewrite (react_settle is_email _ (Json times2) []) by reflexivity.
  split; [reflexivity|]. split; [reflexivity|].
  rewrite run_event_split. cbn [handler_of state effects_of snd].
  rewrite (handleSubmit_valid is_email _ v) by (cbn; exact Hv).
  cbn. apply String.eqb_neq in Hne. rewrite Hne. reflexivity.
Qed.

Lemma X13_witness :
  reachable zod_email sampleWorld
  /\ suggestedTimes (state (run_events zod_email sampleWorld
        [ Submit; Settle (Json [ "10:00 AM" ]); Submit; ClickSuggestedTime "10:00 AM";
          Settle (Json [ "4:00 PM" ]) ])) = [ "4:00 PM" ]
  /\ selectedTime (state (run_events zod_email sampleWorld
        [ Submit; Settle (Json [ "10:00 AM" ]); Submit; ClickSuggestedTime "10:00 AM";
          Settle (Json [ "4:00 PM" ]) ])) = "10:00 AM".
Proof.
  assert (Hr : reachable zod_email sampleWorld).
  { apply reachable_run_events; [apply reachable_mounted | reflexivity]. }
  assert (Hv : formSchema zod_email (values (state sampleWorld))
               = Valid (Values.mk "Standup" (Some "Brief alignment meeting")
                          (mkDate (Some 1800000000000)) "15"
                          [ "a@b.com"; "c@d.org" ] "UTC" "low" "blue"))
    by (vm_compute; reflexivity).
  assert (Hsel : selectedTime (state sampleWorld) = EmptyString)
    by (vm_compute; reflexivity).
  assert (Hload : loading (state sampleWorld) = false) by (vm_compute; reflexivity).
  assert (Hin : In "10:00 AM" [ "10:00 AM" ]) by (left; reflexivity).
  assert (Hne : "10:00 AM" <> EmptyString) by discriminate.
  split; [exact Hr|].
  destruct (X13_selection_outlives_suggestions zod_email sampleWorld _
              [ "10:00 AM" ] [ "4:00 PM" ] "10:00 AM" Hr Hv Hsel Hload Hin Hne)
    as (_ & Hs & Ht & _).
  split; [exact Hs | exact Ht].
Defined.

(** Extra X14: the label of the submit button follows the suggestions,
    not the selection: with suggestions shown and none selected the
    button reads Schedule Meeting, yet a submit of an accepted draft asks
    for suggestions again and schedules nothing; after an empty answer no
    badge is shown and the button reads Get AI Suggestions. *)
Theorem X14_label_follows_suggestions
  (is_email : string -> bool) (st : State) (v : Values.t) :
  formSchema is_email (values st) = Valid v ->
  suggestedTimes st <> [] ->
  selectedTime st = EmptyString ->
  loading st = false ->
  content (submitButton st) = Text "Schedule Meeting"
  /\ filter is_finalization (effects_of (handleSubmit is_email onSubmit st)) = []
  /\ filter is_request (effects_of (handleSubmit is_email onSubmit st))
     = [ Fetch "/api/suggest-times" "POST"
           (mkBody (Values.participants v) (Values.duration v) (Values.timezone v)) ]
  /\ content (submitButton (state_of (getSuggestedTimes_resume (Json []) st)))
     = Text "Get AI Suggestions"
  /\ suggestionBadges (state_of (getSuggestedTimes_resume (Json []) st)) = None.
Proof.
  intros Hv Hs Hsel Hl.
  rewrite (handleSubmit_valid is_email st v Hv). cbn zeta. rewrite Hsel.
  unfold submitButton. cbn [content]. rewrite Hl.
  destruct (suggestedTimes st) as [|x l]; [contradiction Hs; reflexivity|].
  repeat split.
Qed.

Lemma X14_witness :
  content (submitButton (sampleState EmptyString)) = Text "Schedule Meeting"
  /\ filter is_finalization
       (effects_of (handleSubmit zod_email onSubmit (sampleState EmptyString))) = [].
Proof.
  assert (Hv : formSchema zod_email (values (sampleState EmptyString)) = Valid sampleValues)
    by reflexivity.
  assert (Hs : suggestedTimes (sampleState EmptyString) <> []) by discriminate.
  destruct (X14_label_follows_suggestions zod_email (sampleState EmptyString) sampleValues
              Hv Hs eq_refl eq_refl) as (Hc & Hf & _).
  split; [exact Hc | exact Hf].
Defined.

(** Extra X15: with no duration chosen (or the empty string for one) the
    cost is zero, whatever the number of participants an array can
    hold. *)
Theorem X15_no_duration_no_cost (n : nat) (durationValue : option string) :
  (durationValue = None \/ durationValue = Some EmptyString) ->
  Z.of_nat n <= 4294967295 ->
  cost n durationValue = S754_zero false.
Proof.
  intros Hd Hn.
  assert (Hz : or_zero durationValue = "0") by (destruct Hd; subst; reflexivity).
  unfold cost. rewrite Hz.
  change (number_div (parseInt "0") (Number_of_Z 60)) with (S754_zero false).
  destruct n as [|n'].
  - reflexivity.
  - replace (Z.of_nat (S n')) with (Zpos (Pos.of_succ_nat n')) by lia.
    rewrite Number_of_Z_dyadic.
    + reflexivity.
    + apply digits_le_of_lt; [lia|]. change (2 ^ 53) with 9007199254740992. lia.
Qed.

Lemma X15_witness : cost 7 None = S754_zero false.
Proof.
  apply (X15_no_duration_no_cost 7 None); [left; reflexivity | cbn; lia].
Defined.

(** Extra X16: with one of the four durations chosen, Add Participant
    raises the stored cost by exactly [(d / 60) * 100]. *)
Theorem X16_each_participant_adds_a_share
  (is_email : string -> bool) (w : World) (s : string) (d : Z) :
  reachable is_email w ->
  duration (values (state w)) = Some s ->
  In (s, d) minutes_of_durations ->
  Z.of_nat (List.length (participants (values (state w)))) < 4294967295 ->
  exists q q',
    number_value (meetingCost (state w)) = Some q
    /\ number_value (meetingCost (state (react is_email w AddParticipant))) = Some q'
    /\ (q' == q + (inject_Z d / 60) * 100)%Q.
Proof.
  intros Hw Hd Hs Hn.
  assert (Hw1 : reachable is_email (react is_email w AddParticipant))
    by (apply reachable_react; [exact Hw|reflexivity]).
  rewrite (reachable_cost is_email _ Hw1), (reachable_cost is_email _ Hw).
  destruct (react_setValues is_email w AddParticipant
              (fun d => with_participants (participants d ++ [ EmptyString ]) d)
              eq_refl) as (Hv1 & _).
  cbn zeta in Hv1. rewrite Hv1. unfold cost_of.
  cbn [participants duration with_participants]. rewrite Hd, length_app.
  cbn [List.length]. rewrite Nat.add_1_r.
  set (n := List.length (participants (values (state w)))) in *.
  destruct (cost_exact n s d Hs) as (q & Hq & Hqv); [lia|].
  destruct (cost_exact (S n) s d Hs) as (q' & Hq' & Hqv'); [lia|].
  exists q, q'. split; [exact Hq|]. split; [exact Hq'|].
  rewrite Hqv, Hqv', Nat2Z.inj_succ. unfold Z.succ. rewrite inject_Z_plus.
  change (inject_Z 1) with 1%Q. ring.
Qed.

Lemma X16_witness :
  reachable zod_email sampleWorld
  /\ exists q q',
       number_value (meetingCost (state sampleWorld)) = Some q
       /\ number_value (meetingCost (state (react zod_email sampleWorld AddParticipant)))
          = Some q'
       /\ (q' == q + (inject_Z 15 / 60) * 100)%Q.
Proof.
  assert (Hr : reachable zod_email sampleWorld).
  { apply reachable_run_events; [apply reachable_mounted | reflexivity]. }
  split; [exact Hr|].
  apply (X16_each_participant_adds_a_share zod_email sampleWorld "15" 15 Hr).
  - vm_compute. reflexivity.
  - left. reflexivity.
  - vm_compute. reflexivity.
Defined.



(** Extra X18: the dark mode button flips [isDarkMode] and touches nothing
    else; pressing it twice gives back the state, and it emits nothing. *)
Theorem X18_dark_mode_toggle (is_email : string -> bool) (w : World) :
  let w1 := react is_email w ToggleDarkMode in
  let w2 := react is_email w1 ToggleDarkMode in
  isDarkMode (state w1) = negb (isDarkMode (state w))
  /\ values (state w1) = values (state w)
  /\ suggestedTimes (state w1) = suggestedTimes (state w)
  /\ selectedTime (state w1) = selectedTime (state w)
  /\ loading (state w1) = loading (state w)
  /\ meetingCost (state w1) = meetingCost (state w)
  /\ errors (state w1) = errors (state w)
  /\ pending w1 = pending w
  /\ emitted w1 = emitted w
  /\ state w2 = state w.
Proof.
  cbn zeta.
  assert (Hstep : forall w0,
             react is_email w0 ToggleDarkMode
             = mkWorld (state_of (setIsDarkMode (negb (isDarkMode (state w0))) (state w0)))
                       (pending w0) (emitted w0 ++ [])).
  { intros w0. unfold react. rewrite run_event_split. cbn [handler_of].
    rewrite costEffect_run. cbn. rewrite same_deps_refl. reflexivity. }
  rewrite !Hstep. cbn. rewrite negb_involutive, app_nil_r.
  repeat split. destruct (state w); reflexivity.
Qed.

(** Extra X19: in every state the component reaches, exactly one theme
    swatch carries the border of the chosen color. *)
Theorem X19_one_swatch_highlighted (is_email : string -> bool) (w : World) :
  reachable is_email w ->
  List.length
    (filter (fun swatch => String.eqb (snd swatch) "border-primary")
            (themeSwatches (values (state w)))) = 1%nat.
Proof.
  intros Hw.
  destruct (reachable_from_controls is_email w Hw) as (_ & _ & Hth & _).
  unfold themeSwatches.
  cbn in Hth. destruct Hth as [<-|[<-|[<-|[<-|[]]]]]; reflexivity.
Qed.

Lemma X19_witness :
  reachable zod_email (react zod_email sampleWorld (ChangeThemeColor "green"))
  /\ List.length
       (filter (fun swatch => String.eqb (snd swatch) "border-primary")
          (themeSwatches
             (values (state (react zod_email sampleWorld (ChangeThemeColor "green"))))))
     = 1%nat.
Proof.
  assert (Hr : reachable zod_email (react zod_email sampleWorld (ChangeThemeColor "green"))).
  { apply reachable_react; [|reflexivity].
    apply reachable_run_events; [apply reachable_mounted | reflexivity]. }
  split; [exact Hr|].
  exact (X19_one_swatch_highlighted zod_email _ Hr).
Defined.

(** Extra X20: the theme color is cosmetic: picking a color changes that
    field of the draft only, and neither the issues of the schema, nor
    the stored cost, nor the selection, nor the suggestions; nothing is
    emitted. *)
Theorem X20_theme_color_is_cosmetic (is_email : string -> bool) (w : World) (c : string) :
  let w' := react is_email w (ChangeThemeColor c) in
  values (state w') = with_themeColor c (values (state w))
  /\ issues_of (formSchema is_email (values (state w')))
     = issues_of (formSchema is_email (values (state w)))
  /\ meetingCost (state w') = meetingCost (state w)
  /\ selectedTime (state w') = selectedTime (state w)
  /\ suggestedTimes (state w') = suggestedTimes (state w)
  /\ loading (state w') = loading (state w)
  /\ pending w' = pending w
  /\ emitted w' = emitted w.
Proof.
  cbn zeta.
  destruct (react_setValues is_email w (ChangeThemeColor c) (with_themeColor c) eq_refl)
    as (Hv & Hs & Hsel & Hl & _ & _ & Hc & Hem & Hp).
  cbn zeta in *. rewrite Hv, Hs, Hsel, Hl, Hc, Hem, Hp, app_nil_r by discriminate.
  rewrite same_deps_of_eq by reflexivity.
  rewrite !issues_of_formSchema.
  repeat split.
Qed.

(** ** Refused drafts *)

Section Refused.

Variable is_email : string -> bool.

Lemma ap_names_an_issue {A B} (f : parsed (A -> B)) (x : parsed A) :
  names_an_issue f -> names_an_issue x -> names_an_issue (f <*> x).
Proof.
  destruct f as [g|[|i l]], x as [a|[|j m]]; cbn; auto.
Qed.

Lemma formSchema_names_an_issue d : names_an_issue (formSchema is_email d).
Proof.
  unfold formSchema.
  repeat apply ap_names_an_issue; try exact I.
  - unfold schema_title. destruct (_ <? _); exact I.
  - unfold schema_date. destruct (date d) as [[[t|]]|]; exact I.
  - unfold schema_duration. destruct (duration d); exact I.
  - unfold schema_participants. destruct (_ ++ _); exact I.
  - unfold schema_timezone. destruct (timezone d); exact I.
  - unfold schema_priority. destruct (string_in _ _); exact I.
Qed.

End Refused.

(** Extra X22: a draft the schema refuses never leaves the page: the
    schema names at least one issue, and a submit makes no request, logs
    nothing and leaves nothing pending that was not; the draft, the
    suggestions, the selection, the loading flag, the theme and the
    stored cost are as before. *)
Theorem X22_refused_draft_stays_local
  (is_email : string -> bool) (w : World) (issues : list issue) :
  formSchema is_email (values (state w)) = Invalid issues ->
  let w' := react is_email w Submit in
  issues <> []
  /\ emitted w' = emitted w
  /\ pending w' = pending w
  /\ values (state w') = values (state w)
  /\ suggestedTimes (state w') = suggestedTimes (state w)
  /\ selectedTime (state w') = selectedTime (state w)
  /\ loading (state w') = loading (state w)
  /\ isDarkMode (state w') = isDarkMode (state w)
  /\ meetingCost (state w') = meetingCost (state w).
Proof.
  intros Hv. cbn zeta. split.
  - pose proof (formSchema_names_an_issue is_email (values (state w))) as Hn.
    rewrite Hv in Hn. destruct issues; [destruct Hn|discriminate].
  - unfold react. cbn [state pending emitted]. rewrite run_event_split. cbn [handler_of].
    rewrite (handleSubmit_invalid is_email _ issues Hv).
    cbn [result_of effects_of state_of fst snd].
    rewrite costEffect_run. cbn [state_of fst snd setErrors modify values].
    rewrite same_deps_refl, app_nil_r. repeat split.
Qed.

Lemma X22_witness :
  emitted (react zod_email mounted Submit) = []
  /\ pending (react zod_email mounted Submit) = [].
Proof.
  assert (Hv : formSchema zod_email (values (state mounted))
               = Invalid [ mkIssue at_title "Meeting title must be at least 2 characters.";
                           mkIssue at_date "A date is required.";
                           mkIssue at_duration "Please select meeting duration";
                           mkIssue (at_participant 0) "Invalid email" ])
    by reflexivity.
  destruct (X22_refused_draft_stays_local zod_email mounted _ Hv) as (_ & Hem & Hp & _).
  split; [exact Hem | exact Hp].
Defined.
